(** * winex11.drv Vulkan driver (dlls/winex11.drv/vulkan.c)

    A shallow embedding of the X11 driver's Vulkan thunks: the conversion of a
    win32 [VkInstanceCreateInfo] into a host one, the lazy loading of the host
    library, surface creation, the stubs and the function table handed to
    winevulkan, followed by the properties established about them. *)

From stdpp Require Import gmap strings list fin_maps.
From Stdlib Require Import ZArith.

Open Scope Z_scope.

(** ** Scalars of the Vulkan, Win32 and X11 headers *)

(** Addresses are integers, [NULL] is 0.  Handles ([VkInstance], [HWND],
    [Window], ...) are integers as well. *)
Definition ptr := Z.
Definition NULL : ptr := 0.

Definition VkResult := Z.
Definition VkStructureType := Z.
Definition VkInstance := Z.
Definition VkDevice := Z.
Definition VkPhysicalDevice := Z.
Definition VkQueue := Z.
Definition VkSurfaceKHR := Z.
Definition VkSwapchainKHR := Z.
Definition VkSemaphore := Z.
Definition VkFence := Z.
Definition VkBool32 := Z.
Definition HWND := Z.
Definition Window := Z.

(** Result codes, with the values the Vulkan headers (wine/vulkan.h) give
    them. *)
Definition VK_SUCCESS : VkResult := 0.
Definition VK_INCOMPLETE : VkResult := 5.
Definition VK_ERROR_OUT_OF_HOST_MEMORY : VkResult := -1.
Definition VK_ERROR_LAYER_NOT_PRESENT : VkResult := -6.
Definition VK_ERROR_INCOMPATIBLE_DRIVER : VkResult := -9.

Definition VK_STRUCTURE_TYPE_XLIB_SURFACE_CREATE_INFO_KHR : VkStructureType := 1000004000.

(** [GA_PARENT] of winuser.h. *)
Definition GA_PARENT : Z := 1.

(** The model is LP64: a [const char *] takes 8 bytes, and the product of a
    [uint32_t] count with it cannot wrap in [size_t]. *)
Definition sizeof_ptr : Z := 8.
Definition sizeof_wine_vk_surface : Z := 16.

(** ** Structures *)

(** [struct wine_vk_structure_header]: every Vulkan structure starts with a
    type tag and a [pNext] pointer.  A pointer to such a header is either null
    or leads to a header, which makes a [pNext] chain a finite forward list. *)
Inductive wine_vk_structure_header : Type :=
  | header_null
  | header_at (sType : VkStructureType) (pNext : wine_vk_structure_header).

Record VkInstanceCreateInfo := mkVkInstanceCreateInfo {
  sType : VkStructureType;
  pNext : wine_vk_structure_header;
  flags : Z;
  pApplicationInfo : ptr;
  enabledLayerCount : Z;
  ppEnabledLayerNames : ptr;
  enabledExtensionCount : Z;
  ppEnabledExtensionNames : ptr
}.

Module Surface.
Record wine_vk_surface := mk {
  window : Window;
  surface : VkSurfaceKHR   (* native surface *)
}.
End Surface.
Abbreviation wine_vk_surface := Surface.wine_vk_surface.

Module Xlib.
Record VkXlibSurfaceCreateInfoKHR := mk {
  sType : VkStructureType;
  pNext : ptr;
  flags : Z;
  dpy : ptr;
  window : Window
}.
End Xlib.

Module Win32.
Record VkWin32SurfaceCreateInfoKHR := mk {
  sType : VkStructureType;
  pNext : ptr;
  flags : Z;
  hinstance : Z;
  hwnd : HWND
}.
End Win32.

Record VkExtensionProperties := mkVkExtensionProperties {
  extensionName : string;
  specVersion : Z
}.

Definition winex11_vk_instance_extensions : list VkExtensionProperties :=
  [ mkVkExtensionProperties "VK_KHR_surface" 1;
    mkVkExtensionProperties "VK_KHR_win32_surface" 1 ].

(** ** The process: memory, heap, statics and what the driver emits *)

(** What an address can hold, as far as the driver looks at it. *)
Inductive block : Type :=
  | blk_names (slots : list ptr)                 (* an array of [const char *] *)
  | blk_surface (s : wine_vk_surface)            (* a [struct wine_vk_surface] *)
  | blk_handle (v : Z)                           (* a 64-bit handle or a [uint32_t] cell *)
  | blk_properties (ps : list VkExtensionProperties).

Inductive debug_class := TRACE | FIXME | ERR.

(** The host entry points the driver resolves in [wine_vk_init]. *)
Inductive host_symbol :=
  | vkCreateInstance
  | vkCreateXlibSurfaceKHR
  | vkDestroyInstance
  | vkDestroySurfaceKHR
  | vkGetDeviceProcAddr
  | vkGetInstanceProcAddr
  | vkGetPhysicalDeviceXlibPresentationSupportKHR.

Definition symbol_name (s : host_symbol) : string :=
  match s with
  | vkCreateInstance => "vkCreateInstance"
  | vkCreateXlibSurfaceKHR => "vkCreateXlibSurfaceKHR"
  | vkDestroyInstance => "vkDestroyInstance"
  | vkDestroySurfaceKHR => "vkDestroySurfaceKHR"
  | vkGetDeviceProcAddr => "vkGetDeviceProcAddr"
  | vkGetInstanceProcAddr => "vkGetInstanceProcAddr"
  | vkGetPhysicalDeviceXlibPresentationSupportKHR =>
      "vkGetPhysicalDeviceXlibPresentationSupportKHR"
  end.

Definition required_symbols : list host_symbol :=
  [ vkCreateInstance; vkCreateXlibSurfaceKHR; vkDestroyInstance; vkDestroySurfaceKHR;
    vkGetDeviceProcAddr; vkGetInstanceProcAddr;
    vkGetPhysicalDeviceXlibPresentationSupportKHR ].

(** Observable steps.  A diagnostic keeps its class, its format string and
    the integers printed into it (a [%p] of a structure that the model passes
    by value has no counterpart and is not listed). *)
Inductive event : Type :=
  | ev_diag (c : debug_class) (fmt : string) (args : list Z)
  | ev_heap_alloc (size : Z) (ret : ptr)
  | ev_heap_free (p : ptr)
  | ev_host_call (s : host_symbol)
  | ev_create_client_window (h : HWND) (ret : Window).

(** The [static] variables of the file: the seven function pointers and the
    two locals of [wine_vk_init]. *)
Record function_pointers := mk_function_pointers {
  pvkCreateInstance : ptr;
  pvkCreateXlibSurfaceKHR : ptr;
  pvkDestroyInstance : ptr;
  pvkDestroySurfaceKHR : ptr;
  pvkGetDeviceProcAddr : ptr;
  pvkGetInstanceProcAddr : ptr;
  pvkGetPhysicalDeviceXlibPresentationSupportKHR : ptr
}.

Record statics := mk_statics {
  init_done : bool;
  vulkan_handle : ptr;
  pointers : function_pointers
}.

(** The pointer [p##f] of a symbol [f], and its assignment. *)
Definition pvk (s : statics) (f : host_symbol) : ptr :=
  match f with
  | vkCreateInstance => pvkCreateInstance (pointers s)
  | vkCreateXlibSurfaceKHR => pvkCreateXlibSurfaceKHR (pointers s)
  | vkDestroyInstance => pvkDestroyInstance (pointers s)
  | vkDestroySurfaceKHR => pvkDestroySurfaceKHR (pointers s)
  | vkGetDeviceProcAddr => pvkGetDeviceProcAddr (pointers s)
  | vkGetInstanceProcAddr => pvkGetInstanceProcAddr (pointers s)
  | vkGetPhysicalDeviceXlibPresentationSupportKHR =>
      pvkGetPhysicalDeviceXlibPresentationSupportKHR (pointers s)
  end.

Definition set_pointer (f : host_symbol) (p : ptr) (fp : function_pointers) : function_pointers :=
  let '(mk_function_pointers a b c d e g h) := fp in
  match f with
  | vkCreateInstance => mk_function_pointers p b c d e g h
  | vkCreateXlibSurfaceKHR => mk_function_pointers a p c d e g h
  | vkDestroyInstance => mk_function_pointers a b p d e g h
  | vkDestroySurfaceKHR => mk_function_pointers a b c p e g h
  | vkGetDeviceProcAddr => mk_function_pointers a b c d p g h
  | vkGetInstanceProcAddr => mk_function_pointers a b c d e p h
  | vkGetPhysicalDeviceXlibPresentationSupportKHR => mk_function_pointers a b c d e g p
  end.

Definition set_pvk (f : host_symbol) (p : ptr) (s : statics) : statics :=
  mk_statics (init_done s) (vulkan_handle s) (set_pointer f p (pointers s)).
Definition set_init_done (b : bool) (s : statics) : statics :=
  mk_statics b (vulkan_handle s) (pointers s).
Definition set_vulkan_handle (h : ptr) (s : statics) : statics :=
  mk_statics (init_done s) h (pointers s).

(** Statics start out zeroed. *)
Definition initial_statics : statics :=
  mk_statics false NULL (mk_function_pointers NULL NULL NULL NULL NULL NULL NULL).

Record world := mk_world {
  strings : gmap ptr string;      (* NUL-terminated strings readable at an address *)
  memory : gmap ptr block;        (* objects readable at an address *)
  heap_live : gset ptr;           (* blocks of the process heap not yet freed *)
  heap_exhausted : list bool;     (* for each coming heap_alloc: does it return NULL *)
  vars : statics;
  trace : list event              (* oldest first *)
}.

Definition set_memory (m : gmap ptr block) (w : world) : world :=
  mk_world (strings w) m (heap_live w) (heap_exhausted w) (vars w) (trace w).
Definition set_heap_live (h : gset ptr) (w : world) : world :=
  mk_world (strings w) (memory w) h (heap_exhausted w) (vars w) (trace w).
Definition set_heap_exhausted (l : list bool) (w : world) : world :=
  mk_world (strings w) (memory w) (heap_live w) l (vars w) (trace w).
Definition set_vars (s : statics) (w : world) : world :=
  mk_world (strings w) (memory w) (heap_live w) (heap_exhausted w) s (trace w).
Definition set_trace (t : list event) (w : world) : world :=
  mk_world (strings w) (memory w) (heap_live w) (heap_exhausted w) (vars w) t.

(** ** A state monad with crashes *)

(** A computation either finishes with a value and a new state, or crashes
    (a read of unmapped memory, a call through a null function pointer). *)
Inductive outcome (A : Type) : Type :=
  | Done (a : A) (w : world)
  | Crash (why : string).
Arguments Done {A} a w.
Arguments Crash {A} why.

Definition M (A : Type) : Type := world → outcome A.

Definition ret {A} (a : A) : M A := λ w, Done a w.
Definition bind {A B} (m : M A) (k : A → M B) : M B :=
  λ w, match m w with
       | Done a w' => k a w'
       | Crash why => Crash why
       end.
Definition crash {A} (why : string) : M A := λ _, Crash why.
Definition get : M world := λ w, Done w w.
Definition modify (f : world → world) : M unit := λ w, Done tt (f w).

Declare Scope drv_scope.
Delimit Scope drv_scope with drv.
Notation "x <- m ;; k" := (bind m (λ x, k))
  (at level 100, m at next level, right associativity) : drv_scope.
Notation "m ;; k" := (bind m (λ _, k))
  (at level 100, right associativity) : drv_scope.
Open Scope drv_scope.

Definition emit (e : event) : M unit := modify (λ w, set_trace (trace w ++ [e]) w).

Definition TRACE_ (fmt : string) (args : list Z) : M unit := emit (ev_diag TRACE fmt args).
Definition FIXME_ (fmt : string) (args : list Z) : M unit := emit (ev_diag FIXME fmt args).
Definition ERR_ (fmt : string) (args : list Z) : M unit := emit (ev_diag ERR fmt args).

(** ** wine/heap.h *)

Definition next_alloc_fails (w : world) : bool := default false (head (heap_exhausted w)).

(** [heap_alloc size]: NULL when the heap is exhausted, otherwise an address
    that is neither null nor in use; [view] is the uninitialised block as the
    caller is going to look at it. *)
Definition heap_alloc (size : Z) (view : block) : M ptr :=
  w <- get;;
  modify (set_heap_exhausted (tail (heap_exhausted w)));;
  if next_alloc_fails w then
    emit (ev_heap_alloc size NULL);;
    ret NULL
  else
    let a := fresh ({[NULL]} ∪ dom (memory w)) in
    modify (λ w, set_heap_live ({[a]} ∪ heap_live w) (set_memory (<[a := view]> (memory w)) w));;
    emit (ev_heap_alloc size a);;
    ret a.

(** [heap_free p] releases the block at [p].  When [p] is not a live block of
    the heap nothing is released: the call is left in the trace only. *)
Definition heap_free (p : ptr) : M unit :=
  emit (ev_heap_free p);;
  w <- get;;
  if bool_decide (p ∈ heap_live w) then
    modify (λ w, set_heap_live (heap_live w ∖ {[p]}) (set_memory (delete p (memory w)) w))
  else ret tt.

(** ** Memory accesses *)

(** [names[i]] for an array of [const char *]. *)
Definition load_name (names : ptr) (i : Z) : M ptr :=
  w <- get;;
  match memory w !! names with
  | Some (blk_names slots) =>
      match slots !! Z.to_nat i with
      | Some p => if 0 <=? i then ret p else crash "index out of bounds"
      | None => crash "index out of bounds"
      end
  | _ => crash "not an array of names"
  end.

(** [names[i] = v]. *)
Definition store_name (names : ptr) (i : Z) (v : ptr) : M unit :=
  w <- get;;
  match memory w !! names with
  | Some (blk_names slots) =>
      if (0 <=? i) && (i <? Z.of_nat (length slots)) then
        modify (set_memory (<[names := blk_names (<[Z.to_nat i := v]> slots)]> (memory w)))
      else crash "index out of bounds"
  | _ => crash "not an array of names"
  end.

Definition load_surface (p : ptr) : M wine_vk_surface :=
  w <- get;;
  match memory w !! p with
  | Some (blk_surface s) => ret s
  | _ => crash "not a wine_vk_surface"
  end.

Definition store_surface (p : ptr) (s : wine_vk_surface) : M unit :=
  w <- get;;
  match memory w !! p with
  | Some (blk_surface _) => modify (set_memory (<[p := blk_surface s]> (memory w)))
  | _ => crash "not a wine_vk_surface"
  end.

Definition load_handle (p : ptr) : M Z :=
  w <- get;;
  match memory w !! p with
  | Some (blk_handle v) => ret v
  | _ => crash "not a handle cell"
  end.

Definition store_handle (p : ptr) (v : Z) : M unit :=
  w <- get;;
  match memory w !! p with
  | Some (blk_handle _) => modify (set_memory (<[p := blk_handle v]> (memory w)))
  | _ => crash "not a handle cell"
  end.

(** The [memcpy] of one element into [properties[i]]. *)
Definition store_property (properties : ptr) (i : Z) (p : VkExtensionProperties) : M unit :=
  w <- get;;
  match memory w !! properties with
  | Some (blk_properties ps) =>
      if (0 <=? i) && (i <? Z.of_nat (length ps)) then
        modify (set_memory (<[properties := blk_properties (<[Z.to_nat i := p]> ps)]> (memory w)))
      else crash "index out of bounds"
  | _ => crash "not an array of properties"
  end.

(** [strcmp]: zero exactly when the strings are equal. *)
Definition strcmp (s t : string) : Z :=
  match String.compare s t with
  | Eq => 0
  | Lt => -1
  | Gt => 1
  end.

(** [debugstr_a] of wine/debug.h: it formats the string at [s] into a buffer
    of the debug machinery and returns that buffer.  A null [s] is not read.
    The buffer has no address in the model, so the call is kept for its read
    of the string, and what it returns is not listed among the integers of
    the diagnostic it is printed into. *)
Definition debugstr_a (s : ptr) : M unit :=
  if s =? NULL then ret tt
  else
    w <- get;;
    match strings w !! s with
    | Some _ => ret tt
    | None => crash "not a string"
    end.

(** ** What surrounds the driver *)

(** The collaborators of the file: the dynamic loader, the host Vulkan
    library behind the resolved symbols, user32, the rest of winex11.drv, and
    what the compiler and the stack leave to chance. *)
Record environment := mk_environment {
  SONAME_LIBVULKAN : string;                       (* config.h *)
  WINE_VULKAN_DRIVER_VERSION : Z;                  (* wine/vulkan_driver.h *)
  wine_dlopen : string → ptr;
  wine_dlsym : ptr → string → ptr;
  (* host entry points: the result, and the value stored through the last
     pointer argument if the entry point stores one *)
  host_vkCreateInstance : VkInstanceCreateInfo → world → VkResult * option VkInstance;
  host_vkCreateXlibSurfaceKHR :
    VkInstance → Xlib.VkXlibSurfaceCreateInfoKHR → VkResult * option VkSurfaceKHR;
  host_vkGetDeviceProcAddr : VkDevice → ptr → world → ptr;
  host_vkGetInstanceProcAddr : VkInstance → ptr → world → ptr;
  host_vkGetPhysicalDeviceXlibPresentationSupportKHR :
    VkPhysicalDevice → Z → ptr → Z → VkBool32;
  (* user32 and x11drv.h *)
  GetAncestor : HWND → Z → HWND;
  GetDesktopWindow : HWND;
  create_client_window : HWND → Window;
  gdi_display : ptr;
  default_visual_visualid : Z;
  (* where the literal "VK_KHR_xlib_surface" of the driver lives *)
  literal_VK_KHR_xlib_surface : ptr;
  (* contents of memory nobody has written yet *)
  uninitialized : Z;
  uninitialized_create_info : VkInstanceCreateInfo
}.

(** Fields of [dst] are assigned one at a time. *)
Definition set_sType (v : VkStructureType) (d : VkInstanceCreateInfo) :=
  mkVkInstanceCreateInfo v (pNext d) (flags d) (pApplicationInfo d) (enabledLayerCount d)
    (ppEnabledLayerNames d) (enabledExtensionCount d) (ppEnabledExtensionNames d).
Definition set_pNext (v : wine_vk_structure_header) (d : VkInstanceCreateInfo) :=
  mkVkInstanceCreateInfo (sType d) v (flags d) (pApplicationInfo d) (enabledLayerCount d)
    (ppEnabledLayerNames d) (enabledExtensionCount d) (ppEnabledExtensionNames d).
Definition set_flags (v : Z) (d : VkInstanceCreateInfo) :=
  mkVkInstanceCreateInfo (sType d) (pNext d) v (pApplicationInfo d) (enabledLayerCount d)
    (ppEnabledLayerNames d) (enabledExtensionCount d) (ppEnabledExtensionNames d).
Definition set_pApplicationInfo (v : ptr) (d : VkInstanceCreateInfo) :=
  mkVkInstanceCreateInfo (sType d) (pNext d) (flags d) v (enabledLayerCount d)
    (ppEnabledLayerNames d) (enabledExtensionCount d) (ppEnabledExtensionNames d).
Definition set_enabledLayerCount (v : Z) (d : VkInstanceCreateInfo) :=
  mkVkInstanceCreateInfo (sType d) (pNext d) (flags d) (pApplicationInfo d) v
    (ppEnabledLayerNames d) (enabledExtensionCount d) (ppEnabledExtensionNames d).
Definition set_ppEnabledLayerNames (v : ptr) (d : VkInstanceCreateInfo) :=
  mkVkInstanceCreateInfo (sType d) (pNext d) (flags d) (pApplicationInfo d) (enabledLayerCount d)
    v (enabledExtensionCount d) (ppEnabledExtensionNames d).
Definition set_enabledExtensionCount (v : Z) (d : VkInstanceCreateInfo) :=
  mkVkInstanceCreateInfo (sType d) (pNext d) (flags d) (pApplicationInfo d) (enabledLayerCount d)
    (ppEnabledLayerNames d) v (ppEnabledExtensionNames d).
Definition set_ppEnabledExtensionNames (v : ptr) (d : VkInstanceCreateInfo) :=
  mkVkInstanceCreateInfo (sType d) (pNext d) (flags d) (pApplicationInfo d) (enabledLayerCount d)
    (ppEnabledLayerNames d) (enabledExtensionCount d) v.

(** ** The driver *)

Section driver.

Variable E : environment.

(** The string at an address: the driver's own literal, or a string of the
    process. *)
Definition read_string (p : ptr) : M string :=
  w <- get;;
  if p =? literal_VK_KHR_xlib_surface E then ret "VK_KHR_xlib_surface"
  else match strings w !! p with
       | Some s => ret s
       | None => crash "not a string"
       end.

(** A call through one of the resolved pointers. *)
Definition call_host (f : host_symbol) : M unit :=
  w <- get;;
  if pvk (vars w) f =? NULL then crash "call through a null function pointer"
  else emit (ev_host_call f).

(** [LOAD_FUNCPTR(f)], followed by the rest of [wine_vk_init]. *)
Definition LOAD_FUNCPTR (f : host_symbol) (rest : M bool) : M bool :=
  w <- get;;
  let p := wine_dlsym E (vulkan_handle (vars w)) (symbol_name f) in
  modify (λ w, set_vars (set_pvk f p (vars w)) w);;
  if p =? NULL then ret false else rest.

Definition wine_vk_init : M bool :=
  w <- get;;
  if init_done (vars w) then ret (negb (vulkan_handle (vars w) =? NULL))
  else
    modify (λ w, set_vars (set_init_done true (vars w)) w);;
    let h := wine_dlopen E (SONAME_LIBVULKAN E) in
    modify (λ w, set_vars (set_vulkan_handle h (vars w)) w);;
    if h =? NULL then ret false
    else
      LOAD_FUNCPTR vkCreateInstance (
      LOAD_FUNCPTR vkCreateXlibSurfaceKHR (
      LOAD_FUNCPTR vkDestroyInstance (
      LOAD_FUNCPTR vkDestroySurfaceKHR (
      LOAD_FUNCPTR vkGetDeviceProcAddr (
      LOAD_FUNCPTR vkGetInstanceProcAddr (
      LOAD_FUNCPTR vkGetPhysicalDeviceXlibPresentationSupportKHR (
      ret true))))))).

(** The loop over the [pNext] chain of [src]. *)
Fixpoint report_linked_structures (header : wine_vk_structure_header) : M unit :=
  match header with
  | header_null => ret tt
  | header_at type next =>
      FIXME_ "Application requested a linked structure of type %d\n" [type];;
      report_linked_structures next
  end.

(** The loop over the extension names: [n] iterations starting at index [i].
    The source counts with an [int] against the [uint32_t] count; the index
    is kept an unbounded integer here, which is the same thing for every
    count up to INT_MAX. *)
Fixpoint convert_extension_names (n : nat) (i : Z) (names enabled_extensions : ptr) : M unit :=
  match n with
  | O => ret tt
  | S n' =>
      name <- load_name names i;;
      s <- read_string name;;
      (if strcmp s "VK_KHR_win32_surface" =? 0
       then store_name enabled_extensions i (literal_VK_KHR_xlib_surface E)
       else store_name enabled_extensions i name);;
      convert_extension_names n' (i + 1) names enabled_extensions
  end.

(** Helper function for converting between win32 and X11 compatible
    VkInstanceCreateInfo.  [dst] is written in place: the model returns its
    final contents together with the result. *)
Definition wine_vk_instance_convert_create_info (src dst : VkInstanceCreateInfo)
    : M (VkResult * VkInstanceCreateInfo) :=
  let dst := set_sType (sType src) dst in
  let dst := set_flags (flags src) dst in
  let dst := set_pApplicationInfo (pApplicationInfo src) dst in
  (match pNext src with
   | header_null => ret tt
   | _ => report_linked_structures (pNext src)
   end);;
  let dst := set_pNext header_null dst in
  let dst := set_enabledLayerCount 0 dst in
  let dst := set_ppEnabledLayerNames NULL dst in
  if 0 <? enabledExtensionCount src then
    let size := enabledExtensionCount src * sizeof_ptr in
    enabled_extensions <-
      heap_alloc size (blk_names (replicate (Z.to_nat (size / sizeof_ptr)) (uninitialized E)));;
    if enabled_extensions =? NULL then
      ERR_ "Failed to allocate memory for enabled extensions\n" [];;
      ret (VK_ERROR_OUT_OF_HOST_MEMORY, dst)
    else
      convert_extension_names (Z.to_nat (enabledExtensionCount src)) 0
        (ppEnabledExtensionNames src) enabled_extensions;;
      let dst := set_ppEnabledExtensionNames enabled_extensions dst in
      let dst := set_enabledExtensionCount (enabledExtensionCount src) dst in
      ret (VK_SUCCESS, dst)
  else
    let dst := set_enabledExtensionCount (enabledExtensionCount src) dst in
    ret (VK_SUCCESS, dst).

(** Stores what a host entry point writes through its last argument. *)
Definition store_result (out : ptr) (v : option Z) : M unit :=
  match v with
  | Some v => store_handle out v
  | None => ret tt
  end.

Definition X11DRV_vkAcquireNextImageKHR (device : VkDevice) (swapchain : VkSwapchainKHR)
    (timeout : Z) (semaphore : VkSemaphore) (fence : VkFence) (index : ptr) : M VkResult :=
  FIXME_ "stub: %p, 0x%s, 0x%s, 0x%s, 0x%s, %p\n"
    [device; swapchain; timeout; semaphore; fence; index];;
  ret VK_ERROR_OUT_OF_HOST_MEMORY.

Definition X11DRV_vkCreateInstance (create_info : VkInstanceCreateInfo) (allocator : ptr)
    (instance : ptr) : M VkResult :=
  TRACE_ "create_info %p, allocator %p, instance %p\n" [allocator; instance];;
  (if allocator =? NULL then ret tt
   else FIXME_ "Support for allocation callbacks not implemented yet\n" []);;
  r <- wine_vk_instance_convert_create_info create_info (uninitialized_create_info E);;
  let '(res, create_info_host) := r in
  if res =? VK_SUCCESS then
    call_host vkCreateInstance;;
    w <- get;;
    let '(res, created) := host_vkCreateInstance E create_info_host w in
    store_result instance created;;
    (if ppEnabledExtensionNames create_info_host =? NULL then ret tt
     else heap_free (ppEnabledExtensionNames create_info_host));;
    ret res
  else
    ERR_ "Failed to convert instance create info, res=%d\n" [res];;
    ret res.

Definition X11DRV_vkCreateSwapchainKHR (device : VkDevice) (create_info : ptr)
    (allocator : ptr) (swapchain : ptr) : M VkResult :=
  FIXME_ "stub: %p %p %p %p\n" [device; create_info; allocator; swapchain];;
  ret VK_ERROR_OUT_OF_HOST_MEMORY.

Definition X11DRV_vkCreateWin32SurfaceKHR (instance : VkInstance)
    (create_info : Win32.VkWin32SurfaceCreateInfoKHR) (allocator : ptr) (surface : ptr)
    : M VkResult :=
  TRACE_ "%p %p %p %p\n" [instance; allocator; surface];;
  (if allocator =? NULL then ret tt
   else FIXME_ "Support for allocation callbacks not implemented yet\n" []);;
  (* Don't deal with child window rendering just yet. *)
  if negb (GetAncestor E (Win32.hwnd create_info) GA_PARENT =? GetDesktopWindow E) then
    FIXME_ "Application requires child window rendering, which is not implemented yet!\n" [];;
    ret VK_ERROR_INCOMPATIBLE_DRIVER
  else
    let win := create_client_window E (Win32.hwnd create_info) in
    emit (ev_create_client_window (Win32.hwnd create_info) win);;
    if win =? 0 then ret VK_ERROR_OUT_OF_HOST_MEMORY
    else
      x11_surface <-
        heap_alloc sizeof_wine_vk_surface
          (blk_surface (Surface.mk (uninitialized E) (uninitialized E)));;
      if x11_surface =? NULL then ret VK_ERROR_OUT_OF_HOST_MEMORY
      else
        s <- load_surface x11_surface;;
        store_surface x11_surface (Surface.mk win (Surface.surface s));;
        s <- load_surface x11_surface;;
        let create_info_host :=
          Xlib.mk VK_STRUCTURE_TYPE_XLIB_SURFACE_CREATE_INFO_KHR NULL 0 (gdi_display E)
            (Surface.window s) in
        call_host vkCreateXlibSurfaceKHR;;
        let '(res, created) := host_vkCreateXlibSurfaceKHR E instance create_info_host in
        (match created with
         | Some native =>
             s <- load_surface x11_surface;;
             store_surface x11_surface (Surface.mk (Surface.window s) native)
         | None => ret tt
         end);;
        if res =? VK_SUCCESS then
          store_handle surface x11_surface;;
          h <- load_handle surface;;
          TRACE_ "Created surface=0x%s\n" [h];;
          ret VK_SUCCESS
        else
          heap_free surface;;
          ret res.

Definition X11DRV_vkDestroyInstance (instance : VkInstance) (allocator : ptr) : M unit :=
  TRACE_ "%p %p\n" [instance; allocator];;
  (if allocator =? NULL then ret tt
   else FIXME_ "Support for allocation callbacks not implemented yet\n" []);;
  call_host vkDestroyInstance.

Definition X11DRV_vkDestroySurfaceKHR (instance : VkInstance) (surface : VkSurfaceKHR)
    (allocator : ptr) : M unit :=
  let x11_surface : ptr := surface in
  TRACE_ "%p 0x%s %p\n" [instance; surface; allocator];;
  (if allocator =? NULL then ret tt
   else FIXME_ "Support for allocation callbacks not implemented yet\n" []);;
  _ <- load_surface x11_surface;;
  call_host vkDestroySurfaceKHR;;
  heap_free x11_surface.

Definition X11DRV_vkDestroySwapchainKHR (device : VkDevice) (swapchain : VkSwapchainKHR)
    (allocator : ptr) : M unit :=
  FIXME_ "stub: %p, 0x%s %p\n" [device; swapchain; allocator].

Definition ARRAY_SIZE_winex11_vk_instance_extensions : Z :=
  Z.of_nat (length winex11_vk_instance_extensions).

(** The copy loop of [X11DRV_vkEnumerateInstanceExtensionProperties]. *)
Fixpoint copy_instance_extensions (n : nat) (i : Z) (properties : ptr) : M unit :=
  match n with
  | O => ret tt
  | S n' =>
      match winex11_vk_instance_extensions !! Z.to_nat i with
      | Some e => store_property properties i e
      | None => crash "index out of bounds"
      end;;
      copy_instance_extensions n' (i + 1) properties
  end.

Definition X11DRV_vkEnumerateInstanceExtensionProperties (layer_name : ptr) (count : ptr)
    (properties : ptr) : M VkResult :=
  debugstr_a layer_name;;
  TRACE_ "layer_name %p, count %p, properties %p\n" [count; properties];;
  (* This shouldn't get called with layer_name set, the ICD loader prevents it. *)
  if negb (layer_name =? NULL) then
    ERR_ "Layer enumeration not supported from ICD.\n" [];;
    ret VK_ERROR_LAYER_NOT_PRESENT
  else if properties =? NULL then
    store_handle count ARRAY_SIZE_winex11_vk_instance_extensions;;
    ret VK_SUCCESS
  else
    c <- load_handle count;;
    let '(num_copies, res) :=
      if c <? ARRAY_SIZE_winex11_vk_instance_extensions then (c, VK_INCOMPLETE)
      else (ARRAY_SIZE_winex11_vk_instance_extensions, VK_SUCCESS) in
    copy_instance_extensions (Z.to_nat num_copies) 0 properties;;
    TRACE_ "Result %d, extensions copied %d\n" [res; num_copies];;
    ret res.

Definition X11DRV_vkGetDeviceProcAddr (device : VkDevice) (name : ptr) : M ptr :=
  TRACE_ "%p, %s\n" [device; name];;
  call_host vkGetDeviceProcAddr;;
  w <- get;;
  ret (host_vkGetDeviceProcAddr E device name w).

Definition X11DRV_vkGetInstanceProcAddr (instance : VkInstance) (name : ptr) : M ptr :=
  TRACE_ "%p, %s\n" [instance; name];;
  call_host vkGetInstanceProcAddr;;
  w <- get;;
  ret (host_vkGetInstanceProcAddr E instance name w).

Definition X11DRV_vkGetPhysicalDeviceSurfaceCapabilitiesKHR (phys_dev : VkPhysicalDevice)
    (surface : VkSurfaceKHR) (capabilities : ptr) : M VkResult :=
  FIXME_ "stub: %p, 0x%s, %p\n" [phys_dev; surface; capabilities];;
  ret VK_ERROR_OUT_OF_HOST_MEMORY.

Definition X11DRV_vkGetPhysicalDeviceSurfaceFormatsKHR (phys_dev : VkPhysicalDevice)
    (surface : VkSurfaceKHR) (count : ptr) (formats : ptr) : M VkResult :=
  FIXME_ "stub: %p, 0x%s, %p, %p\n" [phys_dev; surface; count; formats];;
  ret VK_ERROR_OUT_OF_HOST_MEMORY.

Definition X11DRV_vkGetPhysicalDeviceSurfacePresentModesKHR (phys_dev : VkPhysicalDevice)
    (surface : VkSurfaceKHR) (count : ptr) (modes : ptr) : M VkResult :=
  FIXME_ "stub: %p, 0x%s, %p, %p\n" [phys_dev; surface; count; modes];;
  ret VK_ERROR_OUT_OF_HOST_MEMORY.

Definition X11DRV_vkGetPhysicalDeviceSurfaceSupportKHR (phys_dev : VkPhysicalDevice)
    (index : Z) (surface : VkSurfaceKHR) (supported : ptr) : M VkResult :=
  FIXME_ "stub: %p, %u, 0x%s, %p\n" [phys_dev; index; surface; supported];;
  ret VK_ERROR_OUT_OF_HOST_MEMORY.

Definition X11DRV_vkGetPhysicalDeviceWin32PresentationSupportKHR (phys_dev : VkPhysicalDevice)
    (index : Z) : M VkBool32 :=
  TRACE_ "%p %u\n" [phys_dev; index];;
  call_host vkGetPhysicalDeviceXlibPresentationSupportKHR;;
  ret (host_vkGetPhysicalDeviceXlibPresentationSupportKHR E phys_dev index (gdi_display E)
         (default_visual_visualid E)).

Definition X11DRV_vkGetSwapchainImagesKHR (device : VkDevice) (swapchain : VkSwapchainKHR)
    (count : ptr) (images : ptr) : M VkResult :=
  FIXME_ "stub: %p, 0x%s %p %p\n" [device; swapchain; count; images];;
  ret VK_ERROR_OUT_OF_HOST_MEMORY.

Definition X11DRV_vkQueuePresentKHR (queue : VkQueue) (present_info : ptr) : M VkResult :=
  FIXME_ "stub: %p, %p\n" [queue; present_info];;
  ret VK_ERROR_OUT_OF_HOST_MEMORY.

(** Modelled from the spec: [struct vulkan_funcs] is declared in
    wine/vulkan_driver.h, which is not among the sources.  The spec makes it a
    fixed table with one function pointer per supported entry point; with the
    positional initialiser of [vulkan_funcs] that is seventeen members in the
    initialiser's order.  A function pointer may be null, hence [option]. *)
Record struct_vulkan_funcs := mk_vulkan_funcs {
  p_vkAcquireNextImageKHR :
    option (VkDevice → VkSwapchainKHR → Z → VkSemaphore → VkFence → ptr → M VkResult);
  p_vkCreateInstance : option (VkInstanceCreateInfo → ptr → ptr → M VkResult);
  p_vkCreateSwapchainKHR : option (VkDevice → ptr → ptr → ptr → M VkResult);
  p_vkCreateWin32SurfaceKHR :
    option (VkInstance → Win32.VkWin32SurfaceCreateInfoKHR → ptr → ptr → M VkResult);
  p_vkDestroyInstance : option (VkInstance → ptr → M unit);
  p_vkDestroySurfaceKHR : option (VkInstance → VkSurfaceKHR → ptr → M unit);
  p_vkDestroySwapchainKHR : option (VkDevice → VkSwapchainKHR → ptr → M unit);
  p_vkEnumerateInstanceExtensionProperties : option (ptr → ptr → ptr → M VkResult);
  p_vkGetDeviceProcAddr : option (VkDevice → ptr → M ptr);
  p_vkGetInstanceProcAddr : option (VkInstance → ptr → M ptr);
  p_vkGetPhysicalDeviceSurfaceCapabilitiesKHR :
    option (VkPhysicalDevice → VkSurfaceKHR → ptr → M VkResult);
  p_vkGetPhysicalDeviceSurfaceFormatsKHR :
    option (VkPhysicalDevice → VkSurfaceKHR → ptr → ptr → M VkResult);
  p_vkGetPhysicalDeviceSurfacePresentModesKHR :
    option (VkPhysicalDevice → VkSurfaceKHR → ptr → ptr → M VkResult);
  p_vkGetPhysicalDeviceSurfaceSupportKHR :
    option (VkPhysicalDevice → Z → VkSurfaceKHR → ptr → M VkResult);
  p_vkGetPhysicalDeviceWin32PresentationSupportKHR : option (VkPhysicalDevice → Z → M VkBool32);
  p_vkGetSwapchainImagesKHR : option (VkDevice → VkSwapchainKHR → ptr → ptr → M VkResult);
  p_vkQueuePresentKHR : option (VkQueue → ptr → M VkResult)
}.

Definition vulkan_funcs : struct_vulkan_funcs :=
  mk_vulkan_funcs
    (Some X11DRV_vkAcquireNextImageKHR)
    (Some X11DRV_vkCreateInstance)
    (Some X11DRV_vkCreateSwapchainKHR)
    (Some X11DRV_vkCreateWin32SurfaceKHR)
    (Some X11DRV_vkDestroyInstance)
    (Some X11DRV_vkDestroySurfaceKHR)
    (Some X11DRV_vkDestroySwapchainKHR)
    (Some X11DRV_vkEnumerateInstanceExtensionProperties)
    (Some X11DRV_vkGetDeviceProcAddr)
    (Some X11DRV_vkGetInstanceProcAddr)
    (Some X11DRV_vkGetPhysicalDeviceSurfaceCapabilitiesKHR)
    (Some X11DRV_vkGetPhysicalDeviceSurfaceFormatsKHR)
    (Some X11DRV_vkGetPhysicalDeviceSurfacePresentModesKHR)
    (Some X11DRV_vkGetPhysicalDeviceSurfaceSupportKHR)
    (Some X11DRV_vkGetPhysicalDeviceWin32PresentationSupportKHR)
    (Some X11DRV_vkGetSwapchainImagesKHR)
    (Some X11DRV_vkQueuePresentKHR).

Definition get_vulkan_driver (version : Z) : M (option struct_vulkan_funcs) :=
  if negb (version =? WINE_VULKAN_DRIVER_VERSION E) then
    ERR_ "version mismatch, vulkan wants %u but driver has %u\n"
      [version; WINE_VULKAN_DRIVER_VERSION E];;
    ret None
  else
    ok <- wine_vk_init;;
    if ok then ret (Some vulkan_funcs) else ret None.

End driver.

(** ** Calls through the table *)

(** What winevulkan does with the table: it picks the member of an entry
    point and calls through it. *)
Inductive call : Type :=
  | call_vkAcquireNextImageKHR (device swapchain timeout semaphore fence index : Z)
  | call_vkCreateInstance (create_info : VkInstanceCreateInfo) (allocator instance : ptr)
  | call_vkCreateSwapchainKHR (device create_info allocator swapchain : Z)
  | call_vkCreateWin32SurfaceKHR (instance : VkInstance)
      (create_info : Win32.VkWin32SurfaceCreateInfoKHR) (allocator surface : ptr)
  | call_vkDestroyInstance (instance allocator : Z)
  | call_vkDestroySurfaceKHR (instance surface allocator : Z)
  | call_vkDestroySwapchainKHR (device swapchain allocator : Z)
  | call_vkEnumerateInstanceExtensionProperties (layer_name count properties : ptr)
  | call_vkGetDeviceProcAddr (device name : Z)
  | call_vkGetInstanceProcAddr (instance name : Z)
  | call_vkGetPhysicalDeviceSurfaceCapabilitiesKHR (phys_dev surface capabilities : Z)
  | call_vkGetPhysicalDeviceSurfaceFormatsKHR (phys_dev surface count formats : Z)
  | call_vkGetPhysicalDeviceSurfacePresentModesKHR (phys_dev surface count modes : Z)
  | call_vkGetPhysicalDeviceSurfaceSupportKHR (phys_dev index surface supported : Z)
  | call_vkGetPhysicalDeviceWin32PresentationSupportKHR (phys_dev index : Z)
  | call_vkGetSwapchainImagesKHR (device swapchain count images : Z)
  | call_vkQueuePresentKHR (queue present_info : Z).

Definition entry_point (c : call) : string :=
  match c with
  | call_vkAcquireNextImageKHR _ _ _ _ _ _ => "vkAcquireNextImageKHR"
  | call_vkCreateInstance _ _ _ => "vkCreateInstance"
  | call_vkCreateSwapchainKHR _ _ _ _ => "vkCreateSwapchainKHR"
  | call_vkCreateWin32SurfaceKHR _ _ _ _ => "vkCreateWin32SurfaceKHR"
  | call_vkDestroyInstance _ _ => "vkDestroyInstance"
  | call_vkDestroySurfaceKHR _ _ _ => "vkDestroySurfaceKHR"
  | call_vkDestroySwapchainKHR _ _ _ => "vkDestroySwapchainKHR"
  | call_vkEnumerateInstanceExtensionProperties _ _ _ => "vkEnumerateInstanceExtensionProperties"
  | call_vkGetDeviceProcAddr _ _ => "vkGetDeviceProcAddr"
  | call_vkGetInstanceProcAddr _ _ => "vkGetInstanceProcAddr"
  | call_vkGetPhysicalDeviceSurfaceCapabilitiesKHR _ _ _ =>
      "vkGetPhysicalDeviceSurfaceCapabilitiesKHR"
  | call_vkGetPhysicalDeviceSurfaceFormatsKHR _ _ _ _ => "vkGetPhysicalDeviceSurfaceFormatsKHR"
  | call_vkGetPhysicalDeviceSurfacePresentModesKHR _ _ _ _ =>
      "vkGetPhysicalDeviceSurfacePresentModesKHR"
  | call_vkGetPhysicalDeviceSurfaceSupportKHR _ _ _ _ => "vkGetPhysicalDeviceSurfaceSupportKHR"
  | call_vkGetPhysicalDeviceWin32PresentationSupportKHR _ _ =>
      "vkGetPhysicalDeviceWin32PresentationSupportKHR"
  | call_vkGetSwapchainImagesKHR _ _ _ _ => "vkGetSwapchainImagesKHR"
  | call_vkQueuePresentKHR _ _ => "vkQueuePresentKHR"
  end.

(** What a call hands back: entry points return a [VkResult], a pointer, a
    [VkBool32], or nothing. *)
Inductive retval : Type :=
  | ret_void
  | ret_result (r : VkResult)
  | ret_pointer (p : ptr)
  | ret_bool32 (b : VkBool32).

Definition through {F} (member : option F) (k : F → M retval) : M retval :=
  match member with
  | Some f => k f
  | None => crash "call through a null function pointer"
  end.

Definition invoke (t : struct_vulkan_funcs) (c : call) : M retval :=
  match c with
  | call_vkAcquireNextImageKHR a b c d e f =>
      through (p_vkAcquireNextImageKHR t) (λ fn, r <- fn a b c d e f;; ret (ret_result r))
  | call_vkCreateInstance a b c =>
      through (p_vkCreateInstance t) (λ fn, r <- fn a b c;; ret (ret_result r))
  | call_vkCreateSwapchainKHR a b c d =>
      through (p_vkCreateSwapchainKHR t) (λ fn, r <- fn a b c d;; ret (ret_result r))
  | call_vkCreateWin32SurfaceKHR a b c d =>
      through (p_vkCreateWin32SurfaceKHR t) (λ fn, r <- fn a b c d;; ret (ret_result r))
  | call_vkDestroyInstance a b =>
      through (p_vkDestroyInstance t) (λ fn, fn a b;; ret ret_void)
  | call_vkDestroySurfaceKHR a b c =>
      through (p_vkDestroySurfaceKHR t) (λ fn, fn a b c;; ret ret_void)
  | call_vkDestroySwapchainKHR a b c =>
      through (p_vkDestroySwapchainKHR t) (λ fn, fn a b c;; ret ret_void)
  | call_vkEnumerateInstanceExtensionProperties a b c =>
      through (p_vkEnumerateInstanceExtensionProperties t)
        (λ fn, r <- fn a b c;; ret (ret_result r))
  | call_vkGetDeviceProcAddr a b =>
      through (p_vkGetDeviceProcAddr t) (λ fn, r <- fn a b;; ret (ret_pointer r))
  | call_vkGetInstanceProcAddr a b =>
      through (p_vkGetInstanceProcAddr t) (λ fn, r <- fn a b;; ret (ret_pointer r))
  | call_vkGetPhysicalDeviceSurfaceCapabilitiesKHR a b c =>
      through (p_vkGetPhysicalDeviceSurfaceCapabilitiesKHR t)
        (λ fn, r <- fn a b c;; ret (ret_result r))
  | call_vkGetPhysicalDeviceSurfaceFormatsKHR a b c d =>
      through (p_vkGetPhysicalDeviceSurfaceFormatsKHR t)
        (λ fn, r <- fn a b c d;; ret (ret_result r))
  | call_vkGetPhysicalDeviceSurfacePresentModesKHR a b c d =>
      through (p_vkGetPhysicalDeviceSurfacePresentModesKHR t)
        (λ fn, r <- fn a b c d;; ret (ret_result r))
  | call_vkGetPhysicalDeviceSurfaceSupportKHR a b c d =>
      through (p_vkGetPhysicalDeviceSurfaceSupportKHR t)
        (λ fn, r <- fn a b c d;; ret (ret_result r))
  | call_vkGetPhysicalDeviceWin32PresentationSupportKHR a b =>
      through (p_vkGetPhysicalDeviceWin32PresentationSupportKHR t)
        (λ fn, r <- fn a b;; ret (ret_bool32 r))
  | call_vkGetSwapchainImagesKHR a b c d =>
      through (p_vkGetSwapchainImagesKHR t) (λ fn, r <- fn a b c d;; ret (ret_result r))
  | call_vkQueuePresentKHR a b =>
      through (p_vkQueuePresentKHR t) (λ fn, r <- fn a b;; ret (ret_result r))
  end.

(** Is the member of an entry point a non-null pointer? *)
Definition member_present (t : struct_vulkan_funcs) (name : string) : bool :=
  if decide (name = "vkAcquireNextImageKHR") then bool_decide (is_Some (p_vkAcquireNextImageKHR t))
  else if decide (name = "vkCreateInstance") then bool_decide (is_Some (p_vkCreateInstance t))
  else if decide (name = "vkCreateSwapchainKHR") then
    bool_decide (is_Some (p_vkCreateSwapchainKHR t))
  else if decide (name = "vkCreateWin32SurfaceKHR") then
    bool_decide (is_Some (p_vkCreateWin32SurfaceKHR t))
  else if decide (name = "vkDestroyInstance") then bool_decide (is_Some (p_vkDestroyInstance t))
  else if decide (name = "vkDestroySurfaceKHR") then
    bool_decide (is_Some (p_vkDestroySurfaceKHR t))
  else if decide (name = "vkDestroySwapchainKHR") then
    bool_decide (is_Some (p_vkDestroySwapchainKHR t))
  else if decide (name = "vkEnumerateInstanceExtensionProperties") then
    bool_decide (is_Some (p_vkEnumerateInstanceExtensionProperties t))
  else if decide (name = "vkGetDeviceProcAddr") then
    bool_decide (is_Some (p_vkGetDeviceProcAddr t))
  else if decide (name = "vkGetInstanceProcAddr") then
    bool_decide (is_Some (p_vkGetInstanceProcAddr t))
  else if decide (name = "vkGetPhysicalDeviceSurfaceCapabilitiesKHR") then
    bool_decide (is_Some (p_vkGetPhysicalDeviceSurfaceCapabilitiesKHR t))
  else if decide (name = "vkGetPhysicalDeviceSurfaceFormatsKHR") then
    bool_decide (is_Some (p_vkGetPhysicalDeviceSurfaceFormatsKHR t))
  else if decide (name = "vkGetPhysicalDeviceSurfacePresentModesKHR") then
    bool_decide (is_Some (p_vkGetPhysicalDeviceSurfacePresentModesKHR t))
  else if decide (name = "vkGetPhysicalDeviceSurfaceSupportKHR") then
    bool_decide (is_Some (p_vkGetPhysicalDeviceSurfaceSupportKHR t))
  else if decide (name = "vkGetPhysicalDeviceWin32PresentationSupportKHR") then
    bool_decide (is_Some (p_vkGetPhysicalDeviceWin32PresentationSupportKHR t))
  else if decide (name = "vkGetSwapchainImagesKHR") then
    bool_decide (is_Some (p_vkGetSwapchainImagesKHR t))
  else if decide (name = "vkQueuePresentKHR") then bool_decide (is_Some (p_vkQueuePresentKHR t))
  else false.

(** The members of the table. *)
Definition entry_points : list string :=
  [ "vkAcquireNextImageKHR"; "vkCreateInstance"; "vkCreateSwapchainKHR";
    "vkCreateWin32SurfaceKHR"; "vkDestroyInstance"; "vkDestroySurfaceKHR";
    "vkDestroySwapchainKHR"; "vkEnumerateInstanceExtensionProperties";
    "vkGetDeviceProcAddr"; "vkGetInstanceProcAddr";
    "vkGetPhysicalDeviceSurfaceCapabilitiesKHR"; "vkGetPhysicalDeviceSurfaceFormatsKHR";
    "vkGetPhysicalDeviceSurfacePresentModesKHR"; "vkGetPhysicalDeviceSurfaceSupportKHR";
    "vkGetPhysicalDeviceWin32PresentationSupportKHR"; "vkGetSwapchainImagesKHR";
    "vkQueuePresentKHR" ].

(** The operations the driver does not implement yet: those whose body is a
    "stub" FIXME. *)
Definition unimplemented : list string :=
  [ "vkAcquireNextImageKHR"; "vkCreateSwapchainKHR"; "vkDestroySwapchainKHR";
    "vkGetPhysicalDeviceSurfaceCapabilitiesKHR"; "vkGetPhysicalDeviceSurfaceFormatsKHR";
    "vkGetPhysicalDeviceSurfacePresentModesKHR"; "vkGetPhysicalDeviceSurfaceSupportKHR";
    "vkGetSwapchainImagesKHR"; "vkQueuePresentKHR" ].

(** ** Observations *)

(** The string the driver reads at an address, if there is one. *)
Definition string_at (E : environment) (w : world) (p : ptr) : option string :=
  if p =? literal_VK_KHR_xlib_surface E then Some "VK_KHR_xlib_surface"
  else strings w !! p.

(** The entry the conversion writes for the input entry [p]. *)
Definition substitute (E : environment) (w : world) (p : ptr) : ptr :=
  if decide (string_at E w p = Some "VK_KHR_win32_surface")
  then literal_VK_KHR_xlib_surface E
  else p.

(** The extension names of a create-info can be read: the array holds exactly
    [enabledExtensionCount] pointers, each to a string.  Nothing is asked of
    the pointer when the count is zero. *)
Definition valid_create_info (E : environment) (w : world) (src : VkInstanceCreateInfo) : Prop :=
  0 < enabledExtensionCount src →
  ∃ names,
    memory w !! ppEnabledExtensionNames src = Some (blk_names names) ∧
    Z.of_nat (length names) = enabledExtensionCount src ∧
    Forall (λ p, is_Some (string_at E w p)) names.

(** The type tags along a [pNext] chain. *)
Fixpoint chain_types (header : wine_vk_structure_header) : list VkStructureType :=
  match header with
  | header_null => []
  | header_at type next => type :: chain_types next
  end.

Definition linked_structure_report (type : VkStructureType) : event :=
  ev_diag FIXME "Application requested a linked structure of type %d\n" [type].

(** The diagnostics the conversion emits for the chain of [src]. *)
Definition reports (src : VkInstanceCreateInfo) : list event :=
  linked_structure_report <$> chain_types (pNext src).

(** The type tags named by the linked-structure diagnostics of a trace. *)
Fixpoint linked_structure_reports (t : list event) : list VkStructureType :=
  match t with
  | [] => []
  | ev_diag FIXME fmt [type] :: t' =>
      if decide (fmt = "Application requested a linked structure of type %d\n")
      then type :: linked_structure_reports t'
      else linked_structure_reports t'
  | _ :: t' => linked_structure_reports t'
  end.

(** What every thunk with an allocator argument starts with: its TRACE, and
    a FIXME when the allocator is not null. *)
Definition entry_diagnostics (fmt : string) (args : list Z) (allocator : ptr) : list event :=
  ev_diag TRACE fmt args ::
  (if allocator =? NULL then []
   else [ev_diag FIXME "Support for allocation callbacks not implemented yet\n" []]).

Definition is_heap_alloc (e : event) : bool :=
  match e with ev_heap_alloc _ _ => true | _ => false end.

Definition is_host_call (e : event) : bool :=
  match e with ev_host_call _ => true | _ => false end.

(** Number of calls to [heap_alloc] in a trace. *)
Definition heap_allocs (t : list event) : nat := length (filter (λ e, is_heap_alloc e = true) t).

(** The state a computation leaves behind ([w] itself if it crashes). *)
Definition state_after {A} (m : M A) (w : world) : world :=
  match m w with
  | Done _ w' => w'
  | Crash _ => w
  end.

Definition result_code {A} (o : outcome (VkResult * A)) : option VkResult :=
  match o with
  | Done (res, _) _ => Some res
  | Crash _ => None
  end.

(** The host library opens and all seven symbols resolve. *)
Definition backend_complete (E : environment) : Prop :=
  wine_dlopen E (SONAME_LIBVULKAN E) ≠ NULL ∧
  Forall (λ f, wine_dlsym E (wine_dlopen E (SONAME_LIBVULKAN E)) (symbol_name f) ≠ NULL)
    required_symbols.

(** ** A test bench *)

Module Bench.

Definition libvulkan : ptr := 0x7f0000.

(** A loader that finds the library and every symbol but the listed ones. *)
Definition dlsym_without (missing : list string) (handle : ptr) (name : string) : ptr :=
  if bool_decide (name ∈ missing) then NULL else handle + Z.of_nat (String.length name).

Definition desktop : HWND := 0x10.
Definition toplevel : HWND := 0x20.
Definition child : HWND := 0x30.

Definition parent_of (h : HWND) (flags : Z) : HWND :=
  if h =? toplevel then desktop else if h =? child then toplevel else 0.

Definition env (missing : list string) (xlib_surface : VkResult * option VkSurfaceKHR)
    (stack : VkInstanceCreateInfo) : environment :=
  {| SONAME_LIBVULKAN := "libvulkan.so.1";
     WINE_VULKAN_DRIVER_VERSION := 1;
     wine_dlopen := λ _, libvulkan;
     wine_dlsym := dlsym_without missing;
     host_vkCreateInstance := λ _ _, (VK_SUCCESS, Some 0x1111);
     host_vkCreateXlibSurfaceKHR := λ _ _, xlib_surface;
     host_vkGetDeviceProcAddr := λ _ _ _, NULL;
     host_vkGetInstanceProcAddr := λ _ _ _, NULL;
     host_vkGetPhysicalDeviceXlibPresentationSupportKHR := λ _ _ _ _, 1;
     GetAncestor := parent_of;
     GetDesktopWindow := desktop;
     create_client_window := λ h, 0x400000 + h;
     gdi_display := 0x9000;
     default_visual_visualid := 0x21;
     literal_VK_KHR_xlib_surface := 0x8000;
     uninitialized := 0xAAAA;
     uninitialized_create_info := stack |}.

Definition zeroed : VkInstanceCreateInfo :=
  mkVkInstanceCreateInfo 0 header_null 0 NULL 0 NULL 0 NULL.

(** A stack slot that still holds the pointer of an earlier frame. *)
Definition stale : VkInstanceCreateInfo :=
  mkVkInstanceCreateInfo 0 header_null 0 NULL 0 NULL 0 0x5000.

Definition good : environment := env [] (VK_SUCCESS, Some 0x2222) zeroed.

(** A host library that lacks one of the seven symbols. *)
Definition no_vkGetDeviceProcAddr : environment :=
  env ["vkGetDeviceProcAddr"] (VK_SUCCESS, Some 0x2222) zeroed.

(** A machine without the host library. *)
Definition no_library : environment :=
  {| SONAME_LIBVULKAN := "libvulkan.so.1";
     WINE_VULKAN_DRIVER_VERSION := 1;
     wine_dlopen := λ _, NULL;
     wine_dlsym := λ _ _, NULL;
     host_vkCreateInstance := λ _ _, (VK_ERROR_INCOMPATIBLE_DRIVER, None);
     host_vkCreateXlibSurfaceKHR := λ _ _, (VK_ERROR_INCOMPATIBLE_DRIVER, None);
     host_vkGetDeviceProcAddr := λ _ _ _, NULL;
     host_vkGetInstanceProcAddr := λ _ _ _, NULL;
     host_vkGetPhysicalDeviceXlibPresentationSupportKHR := λ _ _ _ _, 0;
     GetAncestor := parent_of;
     GetDesktopWindow := desktop;
     create_client_window := λ h, 0x400000 + h;
     gdi_display := 0x9000;
     default_visual_visualid := 0x21;
     literal_VK_KHR_xlib_surface := 0x8000;
     uninitialized := 0xAAAA;
     uninitialized_create_info := zeroed |}.

(** A host library that lacks the last of the seven symbols. *)
Definition no_presentation_support : environment :=
  env ["vkGetPhysicalDeviceXlibPresentationSupportKHR"] (VK_SUCCESS, Some 0x2222) zeroed.

(** A host whose vkCreateXlibSurfaceKHR fails with VK_ERROR_INITIALIZATION_FAILED
    and stores nothing. *)
Definition failing_surface : environment := env [] (-3, None) zeroed.

(** A driver whose uninitialised local is the [stale] slot. *)
Definition stale_stack : environment := env [] (VK_SUCCESS, Some 0x2222) stale.

(** The strings of the application. *)
Definition app_strings : gmap ptr string :=
  <[0x100 := "VK_KHR_surface"]>
  (<[0x200 := "VK_KHR_win32_surface"]>
  (<[0x300 := "VK_EXT_other"]> ∅)).

(** A process before the first call into the driver: the array of extension
    names at 0x1000, a handle cell of the application at 0x2000, and a heap
    block owned by somebody else at 0x5000. *)
Definition process (names : list ptr) (exhausted : list bool) : world :=
  {| strings := app_strings;
     memory := <[0x1000 := blk_names names]>
               (<[0x2000 := blk_handle 0]>
               (<[0x5000 := blk_names [0x100]]> ∅));
     heap_live := {[0x5000]};
     heap_exhausted := exhausted;
     vars := initial_statics;
     trace := [] |}.

(** The same process once the host library has been loaded. *)
Definition loaded (names : list ptr) (exhausted : list bool) : world :=
  set_vars (mk_statics true libvulkan
              (mk_function_pointers 0x7f0010 0x7f0016 0x7f0011 0x7f0013 0x7f0013 0x7f0015
                 0x7f002d))
    (process names exhausted).

(** An application about to enumerate the extensions: its [uint32_t] count at
    0x2000 and its array of properties at 0x3000. *)
Definition blank : VkExtensionProperties := mkVkExtensionProperties "" 0.

Definition enumerating (c : Z) (ps : list VkExtensionProperties) : world :=
  {| strings := app_strings;
     memory := <[0x2000 := blk_handle c]> (<[0x3000 := blk_properties ps]> ∅);
     heap_live := ∅;
     heap_exhausted := [];
     vars := initial_statics;
     trace := [] |}.

Definition create_info (chain : wine_vk_structure_header) (count : Z) : VkInstanceCreateInfo :=
  mkVkInstanceCreateInfo 1 chain 0 0x700 2 0x1800 count 0x1000.

Definition debug_report : wine_vk_structure_header :=
  header_at 1000011000 (header_at 47 header_null).

Definition surface_info (h : HWND) : Win32.VkWin32SurfaceCreateInfoKHR :=
  Win32.mk 1000009000 NULL 0 0x400000 h.

End Bench.

(** * Properties *)

(** ** Running the primitives *)

Lemma strcmp_0 (s t : string) : strcmp s t = 0 ↔ s = t.
Proof.
  unfold strcmp. destruct (String.compare s t) eqn:Hc.
  - apply String.compare_eq_iff in Hc. tauto.
  - split; [discriminate|]. intros ->.
    pose proof (String.compare_antisym t t) as Ha. rewrite Hc in Ha. discriminate.
  - split; [discriminate|]. intros ->.
    pose proof (String.compare_antisym t t) as Ha. rewrite Hc in Ha. discriminate.
Qed.

Lemma set_trace_id (w : world) : set_trace (trace w) w = w.
Proof. by destruct w. Qed.

Lemma set_memory_id (w : world) : set_memory (memory w) w = w.
Proof. by destruct w. Qed.

Lemma bind_Done {A B} (m : M A) (k : A → M B) (w w' : world) (a : A) :
  m w = Done a w' → bind m k w = k a w'.
Proof. unfold bind. by intros ->. Qed.

Lemma bind_Crash {A B} (m : M A) (k : A → M B) (w : world) why :
  m w = Crash why → bind m k w = Crash why.
Proof. unfold bind. by intros ->. Qed.

Lemma read_string_run (E : environment) (p : ptr) (w : world) (s : string) :
  string_at E w p = Some s → read_string E p w = Done s w.
Proof.
  unfold string_at, read_string, bind, get, ret.
  destruct (p =? literal_VK_KHR_xlib_surface E).
  - by intros [= ->].
  - by intros ->.
Qed.

Lemma report_linked_structures_run (header : wine_vk_structure_header) (w : world) :
  report_linked_structures header w =
  Done tt (set_trace (trace w ++ (linked_structure_report <$> chain_types header)) w).
Proof.
  revert w. induction header as [|type next IH]; intros w; simpl.
  - by rewrite app_nil_r, set_trace_id.
  - unfold FIXME_, emit, modify, bind. rewrite IH. simpl.
    unfold set_trace. simpl. by rewrite <- app_assoc.
Qed.

Lemma linked_structure_reports_app (t1 t2 : list event) :
  linked_structure_reports (t1 ++ t2) = linked_structure_reports t1 ++ linked_structure_reports t2.
Proof.
  induction t1 as [|e t1 IH]; [done|].
  destruct e as [c fmt args| | | |]; simpl; try done.
  destruct c, args as [|type [|? ?]]; simpl; try done.
  destruct (decide _); simpl; by rewrite IH.
Qed.

Lemma linked_structure_reports_cons (type : VkStructureType) (t : list event) :
  linked_structure_reports (linked_structure_report type :: t) =
  type :: linked_structure_reports t.
Proof. reflexivity. Qed.

Lemma linked_structure_reports_chain (header : wine_vk_structure_header) :
  linked_structure_reports (linked_structure_report <$> chain_types header) = chain_types header.
Proof.
  induction header as [|type next IH]; [done|].
  cbn [chain_types]. by rewrite fmap_cons, linked_structure_reports_cons, IH.
Qed.

Lemma substitute_set_memory (E : environment) (m : gmap ptr block) (w : world) :
  substitute E (set_memory m w) = substitute E w.
Proof. reflexivity. Qed.

(** One pass of the loop body writes [substitute p] over slot [k]. *)
Lemma convert_extension_names_run (E : environment) (n : nat) :
  ∀ (k : nat) (w : world) (src_names out_slots : list ptr) (names out : ptr),
    memory w !! names = Some (blk_names src_names) →
    memory w !! out = Some (blk_names out_slots) →
    names ≠ out →
    length out_slots = length src_names →
    Forall (λ p, is_Some (string_at E w p)) src_names →
    (k + n = length src_names)%nat →
    convert_extension_names E n (Z.of_nat k) names out w =
    Done tt (set_memory
               (<[out := blk_names (take k out_slots ++ (substitute E w <$> drop k src_names))]>
                  (memory w)) w).
Proof.
  induction n as [|n IH]; intros k w src_names out_slots names out Hsrc Hout Hne Hlen Hstr Hk.
  - simpl. unfold ret.
    rewrite take_ge, drop_ge, app_nil_r by lia.
    by rewrite insert_id, set_memory_id.
  - assert (k < length src_names)%nat as Hlt by lia.
    destruct (lookup_lt_is_Some_2 src_names k Hlt) as [p Hp].
    assert (is_Some (string_at E w p)) as [s Hs].
    { eapply Forall_lookup_1 in Hstr; eauto. }
    cbn [convert_extension_names].
    erewrite (bind_Done (load_name names (Z.of_nat k))); cycle 1.
    { unfold load_name, bind, get. rewrite Hsrc, Nat2Z.id, Hp.
      by destruct (0 <=? Z.of_nat k) eqn:Hz; [|lia]. }
    erewrite (bind_Done (read_string E p)) by (by apply read_string_run).
    set (v := if strcmp s "VK_KHR_win32_surface" =? 0
              then literal_VK_KHR_xlib_surface E else p).
    assert (v = substitute E w p) as Hv.
    { unfold v, substitute. rewrite Hs.
      destruct (strcmp s "VK_KHR_win32_surface" =? 0) eqn:Hc.
      - apply Z.eqb_eq, strcmp_0 in Hc. subst s. by rewrite decide_True.
      - apply Z.eqb_neq in Hc. rewrite decide_False; [done|].
        intros [= ->]. by apply Hc, strcmp_0. }
    set (w1 := set_memory (<[out := blk_names (<[k := v]> out_slots)]> (memory w)) w).
    erewrite (bind_Done _ _ w w1 tt); cycle 1.
    { assert (store_name out (Z.of_nat k) v w = Done tt w1) as Hst.
      { unfold store_name, bind, get, modify. rewrite Hout, Nat2Z.id.
        destruct (0 <=? Z.of_nat k) eqn:?; [|lia].
        by destruct (Z.of_nat k <? Z.of_nat (length out_slots)) eqn:?; [|lia]. }
      unfold v. by destruct (strcmp s "VK_KHR_win32_surface" =? 0). }
    replace (Z.of_nat k + 1) with (Z.of_nat (S k)) by lia.
    rewrite (IH (S k) w1 src_names (<[k := v]> out_slots)); try done.
    + unfold w1. cbn [memory set_memory]. rewrite insert_insert_eq.
      rewrite substitute_set_memory.
      rewrite (drop_S _ _ _ Hp), fmap_cons, <- Hv.
      rewrite (take_S_r _ _ v) by (apply list_lookup_insert_eq; lia).
      rewrite take_insert_ge by lia.
      by rewrite <- app_assoc.
    + unfold w1. cbn [memory set_memory]. by rewrite lookup_insert_ne.
    + unfold w1. cbn [memory set_memory]. by rewrite lookup_insert_eq.
    + by rewrite length_insert.
    + lia.
Qed.

Lemma heap_alloc_fails (size : Z) (view : block) (w : world) :
  next_alloc_fails w = true →
  heap_alloc size view w =
  Done NULL (mk_world (strings w) (memory w) (heap_live w) (tail (heap_exhausted w)) (vars w)
               (trace w ++ [ev_heap_alloc size NULL])).
Proof.
  intros Hfail. unfold heap_alloc, bind, get, modify. by rewrite Hfail.
Qed.

Lemma heap_alloc_succeeds (size : Z) (view : block) (w : world) :
  next_alloc_fails w = false →
  let a := fresh ({[NULL]} ∪ dom (memory w)) in
  heap_alloc size view w =
  Done a (mk_world (strings w) (<[a := view]> (memory w)) ({[a]} ∪ heap_live w)
            (tail (heap_exhausted w)) (vars w) (trace w ++ [ev_heap_alloc size a])).
Proof.
  intros Hok a. unfold heap_alloc, bind, get, modify. by rewrite Hok.
Qed.

(** ** The three ways through [wine_vk_instance_convert_create_info] *)

Lemma convert_chain_run (src : VkInstanceCreateInfo) (w : world) :
  match pNext src with
  | header_null => ret tt
  | _ => report_linked_structures (pNext src)
  end w = Done tt (set_trace (trace w ++ reports src) w).
Proof.
  unfold reports. rewrite <- report_linked_structures_run. by destruct (pNext src).
Qed.

(** No extension is requested: nothing is allocated and
    [ppEnabledExtensionNames] of [dst] is left as it was. *)
Lemma convert_no_extensions (E : environment) (src dst : VkInstanceCreateInfo) (w : world) :
  enabledExtensionCount src ≤ 0 →
  wine_vk_instance_convert_create_info E src dst w =
  Done (VK_SUCCESS,
        mkVkInstanceCreateInfo (sType src) header_null (flags src) (pApplicationInfo src)
          0 NULL (enabledExtensionCount src) (ppEnabledExtensionNames dst))
       (set_trace (trace w ++ reports src) w).
Proof.
  intros Hcount. unfold wine_vk_instance_convert_create_info.
  rewrite (bind_Done _ _ _ _ _ (convert_chain_run src w)).
  by destruct (0 <? enabledExtensionCount src) eqn:?; [lia|].
Qed.

(** The allocation fails: the function stops before it writes the two
    extension fields of [dst]. *)
Lemma convert_out_of_memory (E : environment) (src dst : VkInstanceCreateInfo) (w : world) :
  0 < enabledExtensionCount src →
  next_alloc_fails w = true →
  wine_vk_instance_convert_create_info E src dst w =
  Done (VK_ERROR_OUT_OF_HOST_MEMORY,
        mkVkInstanceCreateInfo (sType src) header_null (flags src) (pApplicationInfo src)
          0 NULL (enabledExtensionCount dst) (ppEnabledExtensionNames dst))
       (mk_world (strings w) (memory w) (heap_live w) (tail (heap_exhausted w)) (vars w)
          (trace w ++ reports src ++
           [ ev_heap_alloc (enabledExtensionCount src * sizeof_ptr) NULL;
             ev_diag ERR "Failed to allocate memory for enabled extensions\n" [] ])).
Proof.
  intros Hcount Hfail. unfold wine_vk_instance_convert_create_info.
  rewrite (bind_Done _ _ _ _ _ (convert_chain_run src w)).
  destruct (0 <? enabledExtensionCount src) eqn:?; [|lia].
  erewrite bind_Done by (by apply heap_alloc_fails).
  unfold ERR_, emit, modify, bind, ret, set_trace. simpl.
  by rewrite <- !app_assoc.
Qed.

(** The allocation succeeds and the names can be read: every slot of the new
    array is the substitution of the input slot. *)
Lemma convert_extensions (E : environment) (src dst : VkInstanceCreateInfo) (w : world)
    (names : list ptr) :
  0 < enabledExtensionCount src →
  next_alloc_fails w = false →
  memory w !! ppEnabledExtensionNames src = Some (blk_names names) →
  Z.of_nat (length names) = enabledExtensionCount src →
  Forall (λ p, is_Some (string_at E w p)) names →
  let a := fresh ({[NULL]} ∪ dom (memory w)) in
  wine_vk_instance_convert_create_info E src dst w =
  Done (VK_SUCCESS,
        mkVkInstanceCreateInfo (sType src) header_null (flags src) (pApplicationInfo src)
          0 NULL (enabledExtensionCount src) a)
       (mk_world (strings w) (<[a := blk_names (substitute E w <$> names)]> (memory w))
          ({[a]} ∪ heap_live w) (tail (heap_exhausted w)) (vars w)
          (trace w ++ reports src ++
           [ ev_heap_alloc (enabledExtensionCount src * sizeof_ptr) a ])).
Proof.
  intros Hcount Hok Hsrc Hlen Hstr a.
  pose proof (is_fresh ({[NULL]} ∪ dom (memory w))) as Hfresh. fold a in Hfresh.
  assert (a ≠ NULL) as Hnull by set_solver.
  assert (ppEnabledExtensionNames src ≠ a) as Hne.
  { intros Heq. apply Hfresh, elem_of_union_r, elem_of_dom. rewrite <- Heq. eauto. }
  unfold wine_vk_instance_convert_create_info.
  rewrite (bind_Done _ _ _ _ _ (convert_chain_run src w)).
  destruct (0 <? enabledExtensionCount src) eqn:?; [|lia].
  set (slots := replicate _ _).
  set (w1 := mk_world (strings w) (<[a := blk_names slots]> (memory w))
               ({[a]} ∪ heap_live w) (tail (heap_exhausted w)) (vars w)
               (trace w ++ reports src ++
                [ ev_heap_alloc (enabledExtensionCount src * sizeof_ptr) a ])).
  erewrite (bind_Done _ _ _ w1 a); cycle 1.
  { rewrite heap_alloc_succeeds by done. unfold w1, set_trace. simpl. fold a.
    by rewrite <- !app_assoc. }
  destruct (a =? NULL) eqn:?; [lia|].
  assert (length slots = length names) as Hslots.
  { unfold slots. rewrite length_replicate, Z.div_mul by done. lia. }
  erewrite (bind_Done _ _ w1 _ tt); cycle 1.
  { rewrite <- Hlen, Nat2Z.id.
    apply (convert_extension_names_run E (length names) 0 w1 names slots); try done.
    - unfold w1. cbn [memory]. by rewrite lookup_insert_ne.
    - unfold w1. cbn [memory]. by rewrite lookup_insert_eq. }
  unfold ret, w1, set_memory. cbn [memory strings heap_live heap_exhausted vars trace].
  rewrite insert_insert_eq, take_0, drop_0. simpl.
  reflexivity.
Qed.

Lemma heap_allocs_app (t1 t2 : list event) :
  heap_allocs (t1 ++ t2) = (heap_allocs t1 + heap_allocs t2)%nat.
Proof. unfold heap_allocs. by rewrite filter_app, length_app. Qed.

Lemma heap_allocs_reports (src : VkInstanceCreateInfo) : heap_allocs (reports src) = 0%nat.
Proof.
  unfold reports. induction (chain_types (pNext src)) as [|type l IH]; [done|].
  rewrite fmap_cons. unfold heap_allocs in *. by rewrite filter_cons_False.
Qed.

(** Splits a goal about the conversion of a readable create-info along the
    three ways through the function. *)
Ltac convert_cases E src dst w Hvalid :=
  let Hcount := fresh "Hcount" in
  let Halloc := fresh "Halloc" in
  let names := fresh "names" in
  let Hsrc := fresh "Hsrc" in
  let Hlen := fresh "Hlen" in
  let Hstr := fresh "Hstr" in
  destruct (Z_lt_le_dec 0 (enabledExtensionCount src)) as [Hcount|Hcount];
  [ destruct (next_alloc_fails w) eqn:Halloc;
    [ rewrite (convert_out_of_memory E src dst w Hcount Halloc)
    | destruct (Hvalid Hcount) as (names & Hsrc & Hlen & Hstr);
      rewrite (convert_extensions E src dst w names Hcount Halloc Hsrc Hlen Hstr) ]
  | rewrite (convert_no_extensions E src dst w Hcount) ].

(** ** The conversion of the create-info *)

(** C1: when [enabledExtensionCount] is positive and the allocation succeeds,
    the conversion succeeds and [dst] points to a freshly allocated array of
    exactly the input's length whose entry at every index is the driver's
    "VK_KHR_xlib_surface" literal where the input entry reads
    "VK_KHR_win32_surface", and the very pointer of the input otherwise; the
    output count is the input count. *)
Theorem convert_create_info_substitutes_extension_names
    (E : environment) (src dst : VkInstanceCreateInfo) (w : world) (names : list ptr) :
  0 < enabledExtensionCount src →
  next_alloc_fails w = false →
  memory w !! ppEnabledExtensionNames src = Some (blk_names names) →
  Z.of_nat (length names) = enabledExtensionCount src →
  Forall (λ p, is_Some (string_at E w p)) names →
  ∃ dst' w' out,
    wine_vk_instance_convert_create_info E src dst w = Done (VK_SUCCESS, dst') w' ∧
    (ppEnabledExtensionNames dst' ∉ dom (memory w)) ∧
    ppEnabledExtensionNames dst' ∈ heap_live w' ∧
    memory w' !! ppEnabledExtensionNames dst' = Some (blk_names out) ∧
    Z.of_nat (length out) = enabledExtensionCount src ∧
    (∀ (i : nat) (p : ptr), names !! i = Some p →
       out !! i = Some (if decide (string_at E w p = Some "VK_KHR_win32_surface")
                        then literal_VK_KHR_xlib_surface E else p)) ∧
    string_at E w' (literal_VK_KHR_xlib_surface E) = Some "VK_KHR_xlib_surface" ∧
    memory w' !! ppEnabledExtensionNames src = Some (blk_names names) ∧
    enabledExtensionCount dst' = enabledExtensionCount src.
Proof.
  intros Hcount Hok Hsrc Hlen Hstr.
  pose proof (is_fresh ({[NULL]} ∪ dom (memory w))) as Hfresh.
  eexists _, _, (substitute E w <$> names).
  split; [by apply convert_extensions|].
  cbn [ppEnabledExtensionNames enabledExtensionCount memory heap_live].
  repeat split.
  - set_solver.
  - set_solver.
  - by rewrite lookup_insert_eq.
  - by rewrite length_fmap.
  - intros i p Hp. by rewrite list_lookup_fmap, Hp.
  - unfold string_at. by rewrite Z.eqb_refl.
  - rewrite lookup_insert_ne; [done|].
    intros Heq. apply Hfresh, elem_of_union_r, elem_of_dom. rewrite Heq. eauto.
Qed.

(** The example of the spec: ["VK_KHR_win32_surface"; "VK_EXT_other";
    "VK_KHR_win32_surface"] in a process with memory to spare. *)
Lemma convert_create_info_substitutes_extension_names_witness :
  ∃ dst' w' out,
    wine_vk_instance_convert_create_info Bench.good (Bench.create_info Bench.debug_report 3)
      Bench.zeroed (Bench.process [0x200; 0x300; 0x200] []) = Done (VK_SUCCESS, dst') w' ∧
    (ppEnabledExtensionNames dst' ∉ dom (memory (Bench.process [0x200; 0x300; 0x200] []))) ∧
    ppEnabledExtensionNames dst' ∈ heap_live w' ∧
    memory w' !! ppEnabledExtensionNames dst' = Some (blk_names out) ∧
    Z.of_nat (length out) = 3 ∧
    (∀ (i : nat) (p : ptr), [0x200; 0x300; 0x200] !! i = Some p →
       out !! i =
       Some (if decide (string_at Bench.good (Bench.process [0x200; 0x300; 0x200] []) p =
                        Some "VK_KHR_win32_surface")
             then 0x8000 else p)) ∧
    string_at Bench.good w' 0x8000 = Some "VK_KHR_xlib_surface" ∧
    memory w' !! 0x1000 = Some (blk_names [0x200; 0x300; 0x200]) ∧
    enabledExtensionCount dst' = 3.
Proof.
  apply (convert_create_info_substitutes_extension_names Bench.good
           (Bench.create_info Bench.debug_report 3) Bench.zeroed
           (Bench.process [0x200; 0x300; 0x200] []) [0x200; 0x300; 0x200]).
  - reflexivity.
  - reflexivity.
  - reflexivity.
  - reflexivity.
  - repeat constructor; vm_compute; eauto.
Defined.

(** C3: whatever the [pNext] chain of the input, the conversion leaves
    [pNext] of the output null, emits one linked-structure diagnostic per
    chain node, in chain order and naming its type tag, and nothing else of
    that kind; its result code is the one it gives for the same input
    without a chain. *)
Theorem convert_create_info_drops_chain
    (E : environment) (src dst : VkInstanceCreateInfo) (w : world) :
  valid_create_info E w src →
  ∃ res dst' w' rest,
    wine_vk_instance_convert_create_info E src dst w = Done (res, dst') w' ∧
    pNext dst' = header_null ∧
    trace w' = trace w ++ reports src ++ rest ∧
    linked_structure_reports (reports src) = chain_types (pNext src) ∧
    linked_structure_reports rest = [] ∧
    result_code (wine_vk_instance_convert_create_info E (set_pNext header_null src) dst w) =
    Some res.
Proof.
  intros Hvalid.
  pose proof (linked_structure_reports_chain (pNext src)) as Hchain.
  destruct (Z_lt_le_dec 0 (enabledExtensionCount src)) as [Hcount|Hcount];
    [destruct (next_alloc_fails w) eqn:Halloc|].
  - rewrite (convert_out_of_memory E src dst w Hcount Halloc).
    rewrite (convert_out_of_memory E (set_pNext header_null src) dst w Hcount Halloc).
    eexists _, _, _, _. repeat split; try done.
  - destruct (Hvalid Hcount) as (names & Hsrc & Hlen & Hstr).
    rewrite (convert_extensions E src dst w names Hcount Halloc Hsrc Hlen Hstr).
    rewrite (convert_extensions E (set_pNext header_null src) dst w names
               Hcount Halloc Hsrc Hlen Hstr).
    eexists _, _, _, _. repeat split; try done.
  - rewrite (convert_no_extensions E src dst w Hcount).
    rewrite (convert_no_extensions E (set_pNext header_null src) dst w Hcount).
    eexists _, _, _, []. repeat split; try done.
    cbn [trace set_trace]. by rewrite app_nil_r.
Qed.

(** The second example of the spec: no extension, one unknown node in the
    chain (here two). *)
Lemma convert_create_info_drops_chain_witness :
  ∃ res dst' w' rest,
    wine_vk_instance_convert_create_info Bench.good (Bench.create_info Bench.debug_report 0)
      Bench.zeroed (Bench.process [] []) = Done (res, dst') w' ∧
    pNext dst' = header_null ∧
    trace w' = [] ++ reports (Bench.create_info Bench.debug_report 0) ++ rest ∧
    linked_structure_reports (reports (Bench.create_info Bench.debug_report 0)) =
    [1000011000; 47] ∧
    linked_structure_reports rest = [] ∧
    result_code (wine_vk_instance_convert_create_info Bench.good
                   (set_pNext header_null (Bench.create_info Bench.debug_report 0))
                   Bench.zeroed (Bench.process [] [])) = Some res.
Proof.
  apply (convert_create_info_drops_chain Bench.good (Bench.create_info Bench.debug_report 0)
           Bench.zeroed (Bench.process [] [])).
  intros Hcount. vm_compute in Hcount. discriminate.
Defined.

(** C4: whatever the layer list of the input, the output has
    [enabledLayerCount] zero and [ppEnabledLayerNames] null. *)
Theorem convert_create_info_clears_layers
    (E : environment) (src dst : VkInstanceCreateInfo) (w : world) :
  valid_create_info E w src →
  ∃ res dst' w',
    wine_vk_instance_convert_create_info E src dst w = Done (res, dst') w' ∧
    enabledLayerCount dst' = 0 ∧
    ppEnabledLayerNames dst' = NULL.
Proof.
  intros Hvalid.
  convert_cases E src dst w Hvalid; by eexists _, _, _.
Qed.

(** A create-info with two layers and three extensions. *)
Lemma convert_create_info_clears_layers_witness :
  ∃ res dst' w',
    wine_vk_instance_convert_create_info Bench.good (Bench.create_info header_null 3)
      Bench.zeroed (Bench.process [0x100; 0x200; 0x300] []) = Done (res, dst') w' ∧
    enabledLayerCount dst' = 0 ∧
    ppEnabledLayerNames dst' = NULL.
Proof.
  apply (convert_create_info_clears_layers Bench.good (Bench.create_info header_null 3)
           Bench.zeroed (Bench.process [0x100; 0x200; 0x300] [])).
  intros _. exists [0x100; 0x200; 0x300].
  split; [reflexivity|]. split; [reflexivity|].
  repeat constructor; vm_compute; eauto.
Defined.

(** C5: the conversion calls [heap_alloc] once when [enabledExtensionCount]
    is positive and not at all otherwise.  When that call fails the result is
    VK_ERROR_OUT_OF_HOST_MEMORY, memory and heap are as before and the
    extension pointer of [dst] has not been written; in every other case the
    result is VK_SUCCESS. *)
Theorem convert_create_info_allocates_once
    (E : environment) (src dst : VkInstanceCreateInfo) (w : world) :
  valid_create_info E w src →
  ∃ res dst' w' new,
    wine_vk_instance_convert_create_info E src dst w = Done (res, dst') w' ∧
    trace w' = trace w ++ new ∧
    heap_allocs new = (if 0 <? enabledExtensionCount src then 1%nat else 0%nat) ∧
    if (0 <? enabledExtensionCount src) && next_alloc_fails w
    then res = VK_ERROR_OUT_OF_HOST_MEMORY ∧
         memory w' = memory w ∧
         heap_live w' = heap_live w ∧
         ppEnabledExtensionNames dst' = ppEnabledExtensionNames dst
    else res = VK_SUCCESS.
Proof.
  intros Hvalid.
  convert_cases E src dst w Hvalid;
    (destruct (0 <? enabledExtensionCount src) eqn:?; [|try lia]; try lia);
    eexists _, _, _, _; (split; [reflexivity|]); (split; [reflexivity|]);
    rewrite ?heap_allocs_app, ?heap_allocs_reports; done.
Qed.

(** Three extensions and an exhausted heap. *)
Lemma convert_create_info_allocates_once_witness :
  ∃ res dst' w' new,
    wine_vk_instance_convert_create_info Bench.good (Bench.create_info header_null 3)
      Bench.stale (Bench.process [0x100; 0x200; 0x300] [true]) = Done (res, dst') w' ∧
    trace w' = [] ++ new ∧
    heap_allocs new = 1%nat ∧
    (res = VK_ERROR_OUT_OF_HOST_MEMORY ∧
     memory w' = memory (Bench.process [0x100; 0x200; 0x300] [true]) ∧
     heap_live w' = heap_live (Bench.process [0x100; 0x200; 0x300] [true]) ∧
     ppEnabledExtensionNames dst' = 0x5000).
Proof.
  apply (convert_create_info_allocates_once Bench.good (Bench.create_info header_null 3)
           Bench.stale (Bench.process [0x100; 0x200; 0x300] [true])).
  intros _. exists [0x100; 0x200; 0x300].
  split; [reflexivity|]. split; [reflexivity|].
  repeat constructor; vm_compute; eauto.
Defined.

(** C2 (the code falls short of it): with [enabledExtensionCount] zero the
    conversion succeeds, records a zero count and allocates nothing, but it
    never writes [ppEnabledExtensionNames] of [dst].  On a [dst] whose slot
    still holds the address of a live heap block, the output carries that
    block, and [X11DRV_vkCreateInstance], which hands the conversion an
    uninitialised local and frees whatever non-null pointer comes back, then
    releases a block it does not own. *)
Theorem convert_create_info_zero_extensions_keeps_stale_pointer :
  (∃ dst' w',
     wine_vk_instance_convert_create_info Bench.good (Bench.create_info header_null 0)
       Bench.stale (Bench.process [] []) = Done (VK_SUCCESS, dst') w' ∧
     enabledExtensionCount dst' = 0 ∧
     heap_allocs (trace w') = 0%nat ∧
     ppEnabledExtensionNames dst' = 0x5000 ∧
     0x5000 ∈ heap_live w' ∧
     memory w' !! 0x5000 = Some (blk_names [0x100])) ∧
  (∃ w',
     X11DRV_vkCreateInstance Bench.stale_stack
       (Bench.create_info header_null 0) NULL 0x2000 (Bench.loaded [] []) =
     Done VK_SUCCESS w' ∧
     0x5000 ∈ heap_live (Bench.loaded [] []) ∧
     trace w' =
       [ ev_diag TRACE "create_info %p, allocator %p, instance %p\n" [NULL; 0x2000];
         ev_host_call vkCreateInstance;
         ev_heap_free 0x5000 ] ∧
     (0x5000 ∉ heap_live w') ∧
     memory w' !! 0x5000 = None).
Proof.
  split.
  - eexists _, _. split; [reflexivity|].
    repeat split; reflexivity.
  - eexists _. split; [reflexivity|].
    repeat (split; [compute_done|]). compute_done.
Qed.

(** ** Loading the host library *)

(** Once [init_done] is set, [wine_vk_init] only looks at [vulkan_handle]. *)
Lemma wine_vk_init_again (E : environment) (w : world) :
  init_done (vars w) = true →
  wine_vk_init E w = Done (negb (vulkan_handle (vars w) =? NULL)) w.
Proof. intros Hdone. unfold wine_vk_init, bind, get, ret. by rewrite Hdone. Qed.

Lemma backend_complete_unfold (E : environment) :
  let h := wine_dlopen E (SONAME_LIBVULKAN E) in
  backend_complete E ↔
  h ≠ NULL ∧
  wine_dlsym E h "vkCreateInstance" ≠ NULL ∧
  wine_dlsym E h "vkCreateXlibSurfaceKHR" ≠ NULL ∧
  wine_dlsym E h "vkDestroyInstance" ≠ NULL ∧
  wine_dlsym E h "vkDestroySurfaceKHR" ≠ NULL ∧
  wine_dlsym E h "vkGetDeviceProcAddr" ≠ NULL ∧
  wine_dlsym E h "vkGetInstanceProcAddr" ≠ NULL ∧
  wine_dlsym E h "vkGetPhysicalDeviceXlibPresentationSupportKHR" ≠ NULL.
Proof.
  intros h. unfold backend_complete, required_symbols. fold h.
  rewrite !Forall_cons, Forall_nil. simpl. tauto.
Qed.

(** The first call: it sets [init_done], keeps the handle [wine_dlopen]
    returned, and reports success exactly when the library and the seven
    symbols resolved. *)
Lemma wine_vk_init_first (E : environment) (w : world) :
  init_done (vars w) = false →
  ∃ ok w',
    wine_vk_init E w = Done ok w' ∧
    init_done (vars w') = true ∧
    vulkan_handle (vars w') = wine_dlopen E (SONAME_LIBVULKAN E) ∧
    (ok = true ↔ backend_complete E) ∧
    memory w' = memory w ∧ heap_live w' = heap_live w ∧ trace w' = trace w.
Proof.
  intros Hfirst. unfold wine_vk_init, bind, get, modify, ret. rewrite Hfirst.
  pose proof (backend_complete_unfold E) as Hbc. simpl in Hbc.
  destruct (wine_dlopen E (SONAME_LIBVULKAN E) =? NULL) eqn:Hopen.
  { apply Z.eqb_eq in Hopen.
    eexists _, _. split; [reflexivity|]. repeat split; try done.
    rewrite Hbc. tauto. }
  apply Z.eqb_neq in Hopen.
  unfold LOAD_FUNCPTR, bind, get, modify, ret. simpl.
  repeat lazymatch goal with
  | |- context [wine_dlsym E ?h ?name =? NULL] =>
      let Hsym := fresh "Hsym" in
      destruct (wine_dlsym E h name =? NULL) eqn:Hsym;
      [ apply Z.eqb_eq in Hsym;
        eexists _, _; (split; [reflexivity|]);
        repeat split; try done; rewrite Hbc; tauto
      | apply Z.eqb_neq in Hsym; simpl ]
  end.
  eexists _, _. split; [reflexivity|]. repeat split; try done.
  unfold required_symbols. by repeat constructor.
Qed.

Lemma wine_vk_init_total (E : environment) (w : world) :
  ∃ ok w', wine_vk_init E w = Done ok w'.
Proof.
  destruct (init_done (vars w)) eqn:Hdone.
  - rewrite wine_vk_init_again by done. eauto.
  - destruct (wine_vk_init_first E w Hdone) as (ok & w' & Hrun & _). eauto.
Qed.

(** The part of the caching that works: when the library itself cannot be
    opened, no later call succeeds. *)
Lemma wine_vk_init_library_missing (E : environment) (w : world) :
  init_done (vars w) = false →
  wine_dlopen E (SONAME_LIBVULKAN E) = NULL →
  ∃ w', wine_vk_init E w = Done false w' ∧ wine_vk_init E w' = Done false w'.
Proof.
  intros Hfirst Hopen.
  destruct (wine_vk_init_first E w Hfirst) as (ok & w' & Hrun & Hdone & Hhandle & Hok & _).
  exists w'. rewrite Hrun, (wine_vk_init_again E w' Hdone), Hhandle, Hopen.
  split; [|done]. destruct ok; [|done].
  destruct Hok as [Hok _]. destruct (Hok eq_refl) as [Hnull _]. done.
Qed.

(** The part that does not: after a first call that opened the library but
    missed a symbol, the next call reports success. *)
Lemma wine_vk_init_symbol_missing (E : environment) (w : world) (f : host_symbol) :
  init_done (vars w) = false →
  wine_dlopen E (SONAME_LIBVULKAN E) ≠ NULL →
  f ∈ required_symbols →
  wine_dlsym E (wine_dlopen E (SONAME_LIBVULKAN E)) (symbol_name f) = NULL →
  ∃ w', wine_vk_init E w = Done false w' ∧ wine_vk_init E w' = Done true w'.
Proof.
  intros Hfirst Hopen Hf Hsym.
  destruct (wine_vk_init_first E w Hfirst) as (ok & w' & Hrun & Hdone & Hhandle & Hok & _).
  exists w'. rewrite Hrun, (wine_vk_init_again E w' Hdone), Hhandle.
  split.
  - destruct ok; [|done]. destruct Hok as [Hok _]. destruct (Hok eq_refl) as [_ Hall].
    rewrite Forall_forall in Hall. by destruct (Hall f Hf).
  - by destruct (wine_dlopen E (SONAME_LIBVULKAN E) =? NULL) eqn:?; [lia|].
Qed.

(** C6 (the code falls short of it): when the library opens but one of the
    seven symbols, here vkGetDeviceProcAddr, does not resolve, the first
    [get_vulkan_driver] returns null, and the second one, with the same
    version and in the same process, returns the table: [wine_vk_init] caches
    [vulkan_handle], which stays non-null, not its own verdict.  The table
    then leads to a call through the null [pvkGetDeviceProcAddr]. *)
Theorem get_vulkan_driver_forgets_missing_symbol :
  ¬ backend_complete Bench.no_vkGetDeviceProcAddr ∧
  ∃ w1 w2,
    get_vulkan_driver Bench.no_vkGetDeviceProcAddr 1 (Bench.process [] []) = Done None w1 ∧
    get_vulkan_driver Bench.no_vkGetDeviceProcAddr 1 w1 =
    Done (Some (vulkan_funcs Bench.no_vkGetDeviceProcAddr)) w2 ∧
    pvkGetDeviceProcAddr (pointers (vars w2)) = NULL ∧
    invoke (vulkan_funcs Bench.no_vkGetDeviceProcAddr) (call_vkGetDeviceProcAddr 0x3333 0x100) w2 =
    Crash "call through a null function pointer".
Proof.
  split.
  - intros [_ Hall]. rewrite Forall_forall in Hall.
    apply (Hall vkGetDeviceProcAddr); [|reflexivity].
    unfold required_symbols. set_solver.
  - eexists _, _. split; [reflexivity|]. split; [reflexivity|]. split; reflexivity.
Qed.

(** ** The entry point of the driver *)

(** C8 (the code falls short of it): a mismatching version is answered with
    null, but a matching one gets the table also when initialisation has not
    succeeded.  On a host library without
    vkGetPhysicalDeviceXlibPresentationSupportKHR, [wine_vk_init] fails on
    its first run; in the state it leaves, [get_vulkan_driver] of the driver's
    version returns the table all the same, because [wine_vk_init] now
    answers from [vulkan_handle] alone, and the member for the presentation
    query calls through a null pointer. *)
Theorem get_vulkan_driver_hands_out_table_after_failed_init :
  ¬ backend_complete Bench.no_presentation_support ∧
  ∃ w1 w2 w3,
    wine_vk_init Bench.no_presentation_support (Bench.process [] []) = Done false w1 ∧
    pvkGetPhysicalDeviceXlibPresentationSupportKHR (pointers (vars w1)) = NULL ∧
    get_vulkan_driver Bench.no_presentation_support
      (WINE_VULKAN_DRIVER_VERSION Bench.no_presentation_support + 1) w1 = Done None w2 ∧
    vars w2 = vars w1 ∧
    get_vulkan_driver Bench.no_presentation_support
      (WINE_VULKAN_DRIVER_VERSION Bench.no_presentation_support) w2 =
    Done (Some (vulkan_funcs Bench.no_presentation_support)) w3 ∧
    invoke (vulkan_funcs Bench.no_presentation_support)
      (call_vkGetPhysicalDeviceWin32PresentationSupportKHR 0x7777 0) w3 =
    Crash "call through a null function pointer".
Proof.
  split.
  - intros [_ Hall]. rewrite Forall_forall in Hall.
    apply (Hall vkGetPhysicalDeviceXlibPresentationSupportKHR); [|reflexivity].
    unfold required_symbols. set_solver.
  - set (w1 := state_after (wine_vk_init Bench.no_presentation_support) (Bench.process [] [])).
    set (w2 := state_after (get_vulkan_driver Bench.no_presentation_support
                              (WINE_VULKAN_DRIVER_VERSION Bench.no_presentation_support + 1))
                 w1).
    set (w3 := state_after (get_vulkan_driver Bench.no_presentation_support
                              (WINE_VULKAN_DRIVER_VERSION Bench.no_presentation_support))
                 w2).
    exists w1, w2, w3. do 5 (split; [reflexivity|]). reflexivity.
Qed.

(** The gate of [get_vulkan_driver] in terms of what [wine_vk_init] itself
    answers: null whenever the version differs, the one fixed table exactly
    when the version matches and [wine_vk_init] returns TRUE; on the first
    use that is when the library and the seven symbols resolved. *)
Lemma get_vulkan_driver_checks_version_and_init
    (E : environment) (version : Z) (w : world) :
  ∃ r w',
    get_vulkan_driver E version w = Done r w' ∧
    (version ≠ WINE_VULKAN_DRIVER_VERSION E → r = None) ∧
    (r = None ∨ r = Some (vulkan_funcs E)) ∧
    (r = Some (vulkan_funcs E) ↔
     version = WINE_VULKAN_DRIVER_VERSION E ∧ ∃ w'', wine_vk_init E w = Done true w'') ∧
    (init_done (vars w) = false →
     (r = Some (vulkan_funcs E) ↔
      version = WINE_VULKAN_DRIVER_VERSION E ∧ backend_complete E)).
Proof.
  unfold get_vulkan_driver.
  destruct (version =? WINE_VULKAN_DRIVER_VERSION E) eqn:Hversion; simpl.
  - apply Z.eqb_eq in Hversion.
    destruct (wine_vk_init_total E w) as (ok & w' & Hrun).
    rewrite (bind_Done _ _ _ _ _ Hrun).
    assert (init_done (vars w) = false → (ok = true ↔ backend_complete E)) as Hfirst_ok.
    { intros Hfirst.
      destruct (wine_vk_init_first E w Hfirst) as (ok2 & w2 & Hrun2 & _ & _ & Hok & _).
      rewrite Hrun in Hrun2. by injection Hrun2 as -> ->. }
    destruct ok; eexists _, _; (split; [reflexivity|]).
    + split; [done|]. split; [by right|]. split.
      * split; [|done]. intros _. split; [done|eauto].
      * intros Hfirst. split; [|done]. intros _. split; [done|]. by apply Hfirst_ok.
    + split; [done|]. split; [by left|]. split.
      * split; [done|]. intros (_ & w2 & Hrun2). by rewrite Hrun in Hrun2.
      * intros Hfirst. split; [done|]. intros [_ Hcomplete].
        by apply (Hfirst_ok Hfirst) in Hcomplete.
  - apply Z.eqb_neq in Hversion.
    eexists _, _. split; [reflexivity|].
    split; [done|]. split; [by left|]. split.
    + split; [done|]. by intros [? _].
    + intros _. split; [done|]. by intros [? _].
Qed.

(** ** Surfaces *)

(** C7: when the parent of the target window is not the desktop window,
    [X11DRV_vkCreateWin32SurfaceKHR] returns VK_ERROR_INCOMPATIBLE_DRIVER
    having emitted diagnostics only: no call into the host, no [heap_alloc],
    memory and heap untouched. *)
Theorem create_surface_rejects_child_window
    (E : environment) (instance : VkInstance) (create_info : Win32.VkWin32SurfaceCreateInfoKHR)
    (allocator surface : ptr) (w : world) :
  GetAncestor E (Win32.hwnd create_info) GA_PARENT ≠ GetDesktopWindow E →
  ∃ w' new,
    X11DRV_vkCreateWin32SurfaceKHR E instance create_info allocator surface w =
    Done VK_ERROR_INCOMPATIBLE_DRIVER w' ∧
    trace w' = trace w ++ new ∧
    Forall (λ e, is_host_call e = false ∧ is_heap_alloc e = false) new ∧
    memory w' = memory w ∧
    heap_live w' = heap_live w ∧
    heap_exhausted w' = heap_exhausted w.
Proof.
  intros Hparent. apply Z.eqb_neq in Hparent.
  unfold X11DRV_vkCreateWin32SurfaceKHR, TRACE_, FIXME_, emit, modify, bind, ret.
  rewrite Hparent.
  destruct (allocator =? NULL); cbn [negb trace set_trace memory heap_live heap_exhausted];
    eexists _, _; (split; [reflexivity|]);
    (split; [by rewrite <- ?app_assoc|]);
    (split; [by repeat constructor|done]).
Qed.

(** A child of a top-level window. *)
Lemma create_surface_rejects_child_window_witness :
  ∃ w' new,
    X11DRV_vkCreateWin32SurfaceKHR Bench.good 0x1111 (Bench.surface_info Bench.child) NULL
      0x2000 (Bench.loaded [] []) = Done VK_ERROR_INCOMPATIBLE_DRIVER w' ∧
    trace w' = [] ++ new ∧
    Forall (λ e, is_host_call e = false ∧ is_heap_alloc e = false) new ∧
    memory w' = memory (Bench.loaded [] []) ∧
    heap_live w' = heap_live (Bench.loaded [] []) ∧
    heap_exhausted w' = [].
Proof.
  apply (create_surface_rejects_child_window Bench.good 0x1111
           (Bench.surface_info Bench.child) NULL 0x2000 (Bench.loaded [] [])).
  vm_compute. discriminate.
Defined.

(** C10 (the code falls short of it): when vkCreateXlibSurfaceKHR fails, the
    function returns the host's result and does not store through [surface],
    but what it passes to [heap_free] is [surface], the caller's output
    pointer, not [x11_surface]: the record it allocated stays live.  When the
    caller's pointer is itself a block of the heap, that block is released
    instead. *)
Theorem create_surface_failure_frees_the_wrong_pointer :
  (∃ w' x11_surface,
     X11DRV_vkCreateWin32SurfaceKHR Bench.failing_surface 0x1111
       (Bench.surface_info Bench.toplevel) NULL 0x2000 (Bench.loaded [] []) = Done (-3) w' ∧
     trace w' =
       [ ev_diag TRACE "%p %p %p %p\n" [0x1111; NULL; 0x2000];
         ev_create_client_window Bench.toplevel 0x400020;
         ev_heap_alloc sizeof_wine_vk_surface x11_surface;
         ev_host_call vkCreateXlibSurfaceKHR;
         ev_heap_free 0x2000 ] ∧
     x11_surface ≠ 0x2000 ∧
     (x11_surface ∉ heap_live (Bench.loaded [] [])) ∧
     x11_surface ∈ heap_live w' ∧
     memory w' !! x11_surface = Some (blk_surface (Surface.mk 0x400020 0xAAAA)) ∧
     memory w' !! 0x2000 = Some (blk_handle 0)) ∧
  (∃ w' x11_surface,
     X11DRV_vkCreateWin32SurfaceKHR Bench.failing_surface 0x1111
       (Bench.surface_info Bench.toplevel) NULL 0x5000 (Bench.loaded [] []) = Done (-3) w' ∧
     0x5000 ∈ heap_live (Bench.loaded [] []) ∧
     (0x5000 ∉ heap_live w') ∧
     memory w' !! 0x5000 = None ∧
     x11_surface ≠ 0x5000 ∧
     x11_surface ∈ heap_live w' ∧
     memory w' !! x11_surface = Some (blk_surface (Surface.mk 0x400020 0xAAAA))).
Proof.
  split.
  - exists (state_after (X11DRV_vkCreateWin32SurfaceKHR Bench.failing_surface 0x1111
                           (Bench.surface_info Bench.toplevel) NULL 0x2000)
              (Bench.loaded [] [])), 0x5001.
    repeat (split; [compute_done|]). compute_done.
  - exists (state_after (X11DRV_vkCreateWin32SurfaceKHR Bench.failing_surface 0x1111
                           (Bench.surface_info Bench.toplevel) NULL 0x5000)
              (Bench.loaded [] [])), 0x5001.
    repeat (split; [compute_done|]). compute_done.
Qed.

(** ** The function table *)

(** C9 as stated fails at vkDestroySwapchainKHR: it is one of the
    unimplemented operations, its member is there, but a call through it
    returns nothing at all, so in particular not VK_ERROR_OUT_OF_HOST_MEMORY. *)
Lemma vkDestroySwapchainKHR_returns_no_result :
  entry_point (call_vkDestroySwapchainKHR 0x4444 0x5555 NULL) ∈ unimplemented ∧
  (∃ w', invoke (vulkan_funcs Bench.good) (call_vkDestroySwapchainKHR 0x4444 0x5555 NULL)
           (Bench.loaded [] []) = Done ret_void w') ∧
  ¬ (∃ w', invoke (vulkan_funcs Bench.good) (call_vkDestroySwapchainKHR 0x4444 0x5555 NULL)
             (Bench.loaded [] []) = Done (ret_result VK_ERROR_OUT_OF_HOST_MEMORY) w').
Proof.
  split; [|split].
  - apply list_elem_of_In. simpl. tauto.
  - eexists. reflexivity.
  - intros [w' Hrun]. vm_compute in Hrun. discriminate.
Qed.

(** C9, amended: every member of the table is a non-null pointer, and a call
    to an unimplemented entry point emits one "stub" FIXME, changes nothing
    else and returns VK_ERROR_OUT_OF_HOST_MEMORY, except for
    vkDestroySwapchainKHR, whose return type is void and which returns
    nothing. *)
Theorem unimplemented_entries_are_present_stubs (E : environment) (c : call) (w : world) :
  entry_point c ∈ unimplemented →
  Forall (λ name, member_present (vulkan_funcs E) name = true) entry_points ∧
  ∃ fmt args,
    invoke (vulkan_funcs E) c w =
    Done (if decide (entry_point c = "vkDestroySwapchainKHR")
          then ret_void
          else ret_result VK_ERROR_OUT_OF_HOST_MEMORY)
         (set_trace (trace w ++ [ev_diag FIXME fmt args]) w).
Proof.
  intros Hstub. split.
  - unfold entry_points. repeat constructor.
  - destruct c;
      try (exfalso; apply list_elem_of_In in Hstub; simpl in Hstub;
           intuition discriminate);
      eexists _, _; reflexivity.
Qed.

(** A call to vkQueuePresentKHR. *)
Lemma unimplemented_entries_are_present_stubs_witness :
  Forall (λ name, member_present (vulkan_funcs Bench.good) name = true) entry_points ∧
  ∃ fmt args,
    invoke (vulkan_funcs Bench.good) (call_vkQueuePresentKHR 0x6666 0x700) (Bench.loaded [] []) =
    Done (ret_result VK_ERROR_OUT_OF_HOST_MEMORY)
         (set_trace (trace (Bench.loaded [] []) ++ [ev_diag FIXME fmt args]) (Bench.loaded [] [])).
Proof.
  apply (unimplemented_entries_are_present_stubs Bench.good
           (call_vkQueuePresentKHR 0x6666 0x700) (Bench.loaded [] [])).
  apply list_elem_of_In. simpl. tauto.
Defined.

(** * Further properties *)

(** ** More on the conversion of the create-info *)

(** The type tag, the flags and the application-info pointer of the input
    reach the output unchanged, whether the conversion succeeds or runs out
    of memory. *)
Theorem convert_create_info_copies_header
    (E : environment) (src dst : VkInstanceCreateInfo) (w : world) :
  valid_create_info E w src →
  ∃ res dst' w',
    wine_vk_instance_convert_create_info E src dst w = Done (res, dst') w' ∧
    sType dst' = sType src ∧
    flags dst' = flags src ∧
    pApplicationInfo dst' = pApplicationInfo src.
Proof.
  intros Hvalid.
  convert_cases E src dst w Hvalid; by eexists _, _, _.
Qed.

Lemma convert_create_info_copies_header_witness :
  ∃ res dst' w',
    wine_vk_instance_convert_create_info Bench.good (Bench.create_info Bench.debug_report 3)
      Bench.stale (Bench.process [0x100; 0x200; 0x300] [true]) = Done (res, dst') w' ∧
    sType dst' = 1 ∧
    flags dst' = 0 ∧
    pApplicationInfo dst' = 0x700.
Proof.
  apply (convert_create_info_copies_header Bench.good (Bench.create_info Bench.debug_report 3)
           Bench.stale (Bench.process [0x100; 0x200; 0x300] [true])).
  intros _. exists [0x100; 0x200; 0x300].
  split; [reflexivity|]. split; [reflexivity|].
  repeat constructor; vm_compute; eauto.
Defined.

(** The conversion touches the process in one place only: either memory and
    heap are as before, or exactly one block has been added, at an address
    that was not in use, and [dst] points to it.  Strings, statics and every
    object that was there before (the input array among them) are as they
    were. *)
Theorem convert_create_info_frame
    (E : environment) (src dst : VkInstanceCreateInfo) (w : world) :
  valid_create_info E w src →
  ∃ res dst' w',
    wine_vk_instance_convert_create_info E src dst w = Done (res, dst') w' ∧
    strings w' = strings w ∧
    vars w' = vars w ∧
    (∀ p, p ∈ dom (memory w) → memory w' !! p = memory w !! p) ∧
    ((memory w' = memory w ∧ heap_live w' = heap_live w) ∨
     (∃ slots,
        res = VK_SUCCESS ∧
        (ppEnabledExtensionNames dst' ∉ dom (memory w)) ∧
        memory w' = <[ppEnabledExtensionNames dst' := blk_names slots]> (memory w) ∧
        heap_live w' = {[ppEnabledExtensionNames dst']} ∪ heap_live w)).
Proof.
  intros Hvalid.
  convert_cases E src dst w Hvalid; eexists _, _, _; (split; [reflexivity|]);
    (split; [done|]); (split; [done|]).
  - split; [done|]. by left.
  - pose proof (is_fresh ({[NULL]} ∪ dom (memory w))) as Hfresh.
    cbn [memory heap_live ppEnabledExtensionNames]. split.
    + intros p Hp. rewrite lookup_insert_ne; [done|]. intros <-. set_solver.
    + right. eexists. repeat split. set_solver.
  - split; [done|]. by left.
Qed.

Lemma convert_create_info_frame_witness :
  ∃ res dst' w',
    wine_vk_instance_convert_create_info Bench.good (Bench.create_info header_null 3)
      Bench.zeroed (Bench.process [0x100; 0x200; 0x300] []) = Done (res, dst') w' ∧
    strings w' = Bench.app_strings ∧
    vars w' = initial_statics ∧
    (∀ p, p ∈ dom (memory (Bench.process [0x100; 0x200; 0x300] [])) →
          memory w' !! p = memory (Bench.process [0x100; 0x200; 0x300] []) !! p) ∧
    ((memory w' = memory (Bench.process [0x100; 0x200; 0x300] []) ∧
      heap_live w' = heap_live (Bench.process [0x100; 0x200; 0x300] [])) ∨
     (∃ slots,
        res = VK_SUCCESS ∧
        (ppEnabledExtensionNames dst' ∉ dom (memory (Bench.process [0x100; 0x200; 0x300] []))) ∧
        memory w' = <[ppEnabledExtensionNames dst' := blk_names slots]>
                      (memory (Bench.process [0x100; 0x200; 0x300] [])) ∧
        heap_live w' = {[ppEnabledExtensionNames dst']} ∪
                       heap_live (Bench.process [0x100; 0x200; 0x300] []))).
Proof.
  apply (convert_create_info_frame Bench.good (Bench.create_info header_null 3)
           Bench.zeroed (Bench.process [0x100; 0x200; 0x300] [])).
  intros _. exists [0x100; 0x200; 0x300].
  split; [reflexivity|]. split; [reflexivity|].
  repeat constructor; vm_compute; eauto.
Defined.

(** No name that reads "VK_KHR_win32_surface" survives the conversion: the
    host never sees the win32 surface extension among the enabled ones. *)
Theorem convert_create_info_output_has_no_win32_surface
    (E : environment) (src dst : VkInstanceCreateInfo) (w : world) (names : list ptr) :
  0 < enabledExtensionCount src →
  next_alloc_fails w = false →
  memory w !! ppEnabledExtensionNames src = Some (blk_names names) →
  Z.of_nat (length names) = enabledExtensionCount src →
  Forall (λ p, is_Some (string_at E w p)) names →
  ∃ dst' w' out,
    wine_vk_instance_convert_create_info E src dst w = Done (VK_SUCCESS, dst') w' ∧
    memory w' !! ppEnabledExtensionNames dst' = Some (blk_names out) ∧
    Forall (λ q, is_Some (string_at E w' q) ∧
                 string_at E w' q ≠ Some "VK_KHR_win32_surface") out.
Proof.
  intros Hcount Hok Hsrc Hlen Hstr.
  eexists _, _, (substitute E w <$> names).
  split; [by apply convert_extensions|].
  cbn [ppEnabledExtensionNames memory]. split; [by rewrite lookup_insert_eq|].
  rewrite Forall_fmap. eapply Forall_impl; [exact Hstr|].
  intros p Hp. unfold substitute. simpl. destruct (decide _) as [Hwin|Hother].
  - unfold string_at. rewrite Z.eqb_refl. split; [eauto|discriminate].
  - done.
Qed.

Lemma convert_create_info_output_has_no_win32_surface_witness :
  ∃ dst' w' out,
    wine_vk_instance_convert_create_info Bench.good (Bench.create_info header_null 3)
      Bench.zeroed (Bench.process [0x200; 0x300; 0x200] []) = Done (VK_SUCCESS, dst') w' ∧
    memory w' !! ppEnabledExtensionNames dst' = Some (blk_names out) ∧
    Forall (λ q, is_Some (string_at Bench.good w' q) ∧
                 string_at Bench.good w' q ≠ Some "VK_KHR_win32_surface") out.
Proof.
  apply (convert_create_info_output_has_no_win32_surface Bench.good
           (Bench.create_info header_null 3) Bench.zeroed
           (Bench.process [0x200; 0x300; 0x200] []) [0x200; 0x300; 0x200]).
  - reflexivity.
  - reflexivity.
  - reflexivity.
  - reflexivity.
  - repeat constructor; vm_compute; eauto.
Defined.



(** ** Enumerating the instance extensions *)

Lemma load_handle_run (p : ptr) (v : Z) (w : world) :
  memory w !! p = Some (blk_handle v) → load_handle p w = Done v w.
Proof. intros Hp. unfold load_handle, bind, get. by rewrite Hp. Qed.

Lemma store_handle_run (p : ptr) (old v : Z) (w : world) :
  memory w !! p = Some (blk_handle old) →
  store_handle p v w = Done tt (set_memory (<[p := blk_handle v]> (memory w)) w).
Proof. intros Hp. unfold store_handle, bind, get, modify. by rewrite Hp. Qed.

(** [n] rounds of the copy loop from index [k] on overwrite the slots
    [k .. k+n-1] with the driver's extensions of the same indices. *)
Lemma copy_instance_extensions_run (n : nat) :
  ∀ (k : nat) (w : world) (ps : list VkExtensionProperties) (properties : ptr),
    memory w !! properties = Some (blk_properties ps) →
    (k + n ≤ length winex11_vk_instance_extensions)%nat →
    (k + n ≤ length ps)%nat →
    copy_instance_extensions n (Z.of_nat k) properties w =
    Done tt (set_memory
               (<[properties :=
                    blk_properties (take k ps ++
                                    take n (drop k winex11_vk_instance_extensions) ++
                                    drop (k + n) ps)]> (memory w)) w).
Proof.
  induction n as [|n IH]; intros k w ps properties Hps Hext Hlen.
  - simpl. unfold ret. rewrite Nat.add_0_r, take_drop.
    by rewrite insert_id, set_memory_id.
  - assert (k < length winex11_vk_instance_extensions)%nat as Hk by lia.
    destruct (lookup_lt_is_Some_2 _ _ Hk) as [e He].
    cbn [copy_instance_extensions]. rewrite Nat2Z.id, He.
    set (w1 := set_memory (<[properties := blk_properties (<[k := e]> ps)]> (memory w)) w).
    erewrite (bind_Done _ _ w w1 tt); cycle 1.
    { unfold store_property, bind, get, modify. rewrite Hps, Nat2Z.id.
      destruct (0 <=? Z.of_nat k) eqn:?; [|lia].
      by destruct (Z.of_nat k <? Z.of_nat (length ps)) eqn:?; [|lia]. }
    replace (Z.of_nat k + 1) with (Z.of_nat (S k)) by lia.
    rewrite (IH (S k) w1 (<[k := e]> ps)); cycle 1.
    { unfold w1. cbn [memory set_memory]. by rewrite lookup_insert_eq. }
    { lia. }
    { rewrite length_insert. lia. }
    unfold w1. cbn [memory set_memory]. rewrite insert_insert_eq.
    rewrite (take_S_r _ _ e) by (apply list_lookup_insert_eq; lia).
    rewrite take_insert_ge by lia.
    rewrite drop_insert_lt by lia.
    rewrite (drop_S _ _ _ He). cbn [take].
    replace (S k + n)%nat with (k + S n)%nat by lia.
    by rewrite <- app_assoc.
Qed.

Lemma debugstr_a_run (s : ptr) (w : world) :
  s = NULL ∨ is_Some (strings w !! s) → debugstr_a s w = Done tt w.
Proof.
  unfold debugstr_a, bind, get, ret. destruct (s =? NULL) eqn:Hs; [done|].
  intros [->|[str Hstr]]; [done|]. by rewrite Hstr.
Qed.

(** A query with a layer name is refused: once the name has been formatted
    for the TRACE, the answer is VK_ERROR_LAYER_NOT_PRESENT after that TRACE
    and one ERR, and neither [*count] nor the array is read or written. *)
Theorem enumerate_extensions_rejects_layer
    (layer_name count properties : ptr) (w : world) :
  layer_name ≠ NULL →
  is_Some (strings w !! layer_name) →
  ∃ w' args,
    X11DRV_vkEnumerateInstanceExtensionProperties layer_name count properties w =
    Done VK_ERROR_LAYER_NOT_PRESENT w' ∧
    memory w' = memory w ∧
    heap_live w' = heap_live w ∧
    trace w' = trace w ++
      [ ev_diag TRACE "layer_name %p, count %p, properties %p\n" args;
        ev_diag ERR "Layer enumeration not supported from ICD.\n" [] ].
Proof.
  intros Hlayer Hstr.
  unfold X11DRV_vkEnumerateInstanceExtensionProperties.
  erewrite (bind_Done (debugstr_a layer_name)) by (apply debugstr_a_run; by right).
  apply Z.eqb_neq in Hlayer.
  unfold TRACE_, ERR_, emit, modify, bind, ret.
  rewrite Hlayer. eexists _, _. split; [reflexivity|].
  cbn [negb trace set_trace memory heap_live]. by rewrite <- app_assoc.
Qed.

Lemma enumerate_extensions_rejects_layer_witness :
  ∃ w' args,
    X11DRV_vkEnumerateInstanceExtensionProperties 0x100 0x2000 NULL (Bench.process [] []) =
    Done VK_ERROR_LAYER_NOT_PRESENT w' ∧
    memory w' = memory (Bench.process [] []) ∧
    heap_live w' = heap_live (Bench.process [] []) ∧
    trace w' = [] ++
      [ ev_diag TRACE "layer_name %p, count %p, properties %p\n" args;
        ev_diag ERR "Layer enumeration not supported from ICD.\n" [] ].
Proof.
  apply (enumerate_extensions_rejects_layer 0x100 0x2000 NULL (Bench.process [] [])).
  - discriminate.
  - vm_compute. eauto.
Defined.

Lemma enumerate_count_run (count : ptr) (old : Z) (w : world) :
  memory w !! count = Some (blk_handle old) →
  X11DRV_vkEnumerateInstanceExtensionProperties NULL count NULL w =
  Done VK_SUCCESS
    (mk_world (strings w) (<[count := blk_handle 2]> (memory w)) (heap_live w)
       (heap_exhausted w) (vars w)
       (trace w ++
        [ev_diag TRACE "layer_name %p, count %p, properties %p\n" [count; NULL]])).
Proof.
  intros Hcount.
  unfold X11DRV_vkEnumerateInstanceExtensionProperties.
  erewrite (bind_Done (debugstr_a NULL)) by (apply debugstr_a_run; by left).
  unfold TRACE_, emit, modify.
  unfold bind at 1. cbn [negb Z.eqb NULL].
  by erewrite bind_Done by (by eapply store_handle_run).
Qed.

Lemma enumerate_copy_run
    (count properties : ptr) (c : Z) (ps : list VkExtensionProperties) (w : world) :
  properties ≠ NULL →
  memory w !! count = Some (blk_handle c) →
  memory w !! properties = Some (blk_properties ps) →
  0 ≤ c →
  Z.min c 2 ≤ Z.of_nat (length ps) →
  X11DRV_vkEnumerateInstanceExtensionProperties NULL count properties w =
  Done (if c <? 2 then VK_INCOMPLETE else VK_SUCCESS)
    (mk_world (strings w)
       (<[properties :=
            blk_properties (take (Z.to_nat (Z.min c 2)) winex11_vk_instance_extensions ++
                            drop (Z.to_nat (Z.min c 2)) ps)]> (memory w))
       (heap_live w) (heap_exhausted w) (vars w)
       (trace w ++
        [ ev_diag TRACE "layer_name %p, count %p, properties %p\n" [count; properties];
          ev_diag TRACE "Result %d, extensions copied %d\n"
            [if c <? 2 then VK_INCOMPLETE else VK_SUCCESS; Z.min c 2] ])).
Proof.
  intros Hprops Hcount Hps Hc Hlen. apply Z.eqb_neq in Hprops.
  unfold X11DRV_vkEnumerateInstanceExtensionProperties.
  erewrite (bind_Done (debugstr_a NULL)) by (apply debugstr_a_run; by left).
  unfold TRACE_, emit, modify.
  unfold bind at 1. cbn [negb Z.eqb NULL]. rewrite Hprops.
  erewrite bind_Done by (by apply load_handle_run).
  unfold ARRAY_SIZE_winex11_vk_instance_extensions. cbn [length winex11_vk_instance_extensions].
  change (Z.of_nat 2) with 2.
  destruct (c <? 2) eqn:Hlt.
  - replace (Z.min c 2) with c in * by lia.
    erewrite bind_Done; cycle 1.
    { apply (copy_instance_extensions_run (Z.to_nat c) 0 _ ps); [done|simpl; lia|lia]. }
    unfold bind, ret, set_memory, set_trace. cbn [memory trace strings heap_live heap_exhausted vars].
    rewrite take_0, drop_0, <- app_assoc. reflexivity.
  - replace (Z.min c 2) with 2 in * by lia.
    erewrite bind_Done; cycle 1.
    { apply (copy_instance_extensions_run 2 0 _ ps); [done|simpl; lia|lia]. }
    unfold bind, ret, set_memory, set_trace. cbn [memory trace strings heap_live heap_exhausted vars].
    rewrite take_0, drop_0, <- app_assoc. reflexivity.
Qed.

(** Without an array the call only reports how many extensions there are:
    [*count] becomes 2 and everything else in memory stays. *)
Theorem enumerate_extensions_reports_count (count : ptr) (old : Z) (w : world) :
  memory w !! count = Some (blk_handle old) →
  ∃ w',
    X11DRV_vkEnumerateInstanceExtensionProperties NULL count NULL w = Done VK_SUCCESS w' ∧
    memory w' = <[count := blk_handle 2]> (memory w) ∧
    heap_live w' = heap_live w.
Proof.
  intros Hcount. rewrite (enumerate_count_run count old w Hcount). by eexists.
Qed.

Lemma enumerate_extensions_reports_count_witness :
  ∃ w',
    X11DRV_vkEnumerateInstanceExtensionProperties NULL 0x2000 NULL (Bench.process [] []) =
    Done VK_SUCCESS w' ∧
    memory w' = <[0x2000 := blk_handle 2]> (memory (Bench.process [] [])) ∧
    heap_live w' = heap_live (Bench.process [] []).
Proof.
  apply (enumerate_extensions_reports_count 0x2000 0 (Bench.process [] [])).
  reflexivity.
Defined.

(** With an array of [c] slots announced in [*count], the call fills the
    first [min c 2] slots with the driver's extensions in order, leaves the
    slots behind them and [*count] itself as they were, and answers
    VK_INCOMPLETE exactly when [c] is below 2. *)
Theorem enumerate_extensions_copies_prefix
    (count properties : ptr) (c : Z) (ps : list VkExtensionProperties) (w : world) :
  properties ≠ NULL →
  memory w !! count = Some (blk_handle c) →
  memory w !! properties = Some (blk_properties ps) →
  0 ≤ c →
  Z.min c 2 ≤ Z.of_nat (length ps) →
  ∃ w',
    X11DRV_vkEnumerateInstanceExtensionProperties NULL count properties w =
    Done (if c <? 2 then VK_INCOMPLETE else VK_SUCCESS) w' ∧
    memory w' =
      <[properties :=
          blk_properties (take (Z.to_nat (Z.min c 2)) winex11_vk_instance_extensions ++
                          drop (Z.to_nat (Z.min c 2)) ps)]> (memory w) ∧
    memory w' !! count = Some (blk_handle c) ∧
    heap_live w' = heap_live w.
Proof.
  intros Hprops Hcount Hps Hc Hlen.
  assert (count ≠ properties) as Hne by (intros ->; congruence).
  rewrite (enumerate_copy_run count properties c ps w) by done.
  eexists. split; [reflexivity|]. cbn [memory heap_live].
  repeat split. by rewrite lookup_insert_ne.
Qed.

(** An application with room for one extension only. *)
Lemma enumerate_extensions_copies_prefix_witness :
  ∃ w',
    X11DRV_vkEnumerateInstanceExtensionProperties NULL 0x2000 0x3000
      (Bench.enumerating 1 [Bench.blank; Bench.blank; Bench.blank]) = Done VK_INCOMPLETE w' ∧
    memory w' =
      <[0x3000 := blk_properties [mkVkExtensionProperties "VK_KHR_surface" 1;
                                  Bench.blank; Bench.blank]]>
        (memory (Bench.enumerating 1 [Bench.blank; Bench.blank; Bench.blank])) ∧
    memory w' !! 0x2000 = Some (blk_handle 1) ∧
    heap_live w' = heap_live (Bench.enumerating 1 [Bench.blank; Bench.blank; Bench.blank]).
Proof.
  apply (enumerate_extensions_copies_prefix 0x2000 0x3000 1
           [Bench.blank; Bench.blank; Bench.blank]
           (Bench.enumerating 1 [Bench.blank; Bench.blank; Bench.blank])).
  - discriminate.
  - reflexivity.
  - reflexivity.
  - lia.
  - simpl. lia.
Defined.

(** The usual two calls: asking for the count and then passing an array with
    at least that many slots gives VK_SUCCESS and the driver's two extensions,
    VK_KHR_surface and VK_KHR_win32_surface, at the front of the array. *)
Theorem enumerate_extensions_two_calls
    (count properties : ptr) (old : Z) (ps : list VkExtensionProperties) (w : world) :
  properties ≠ NULL →
  memory w !! count = Some (blk_handle old) →
  memory w !! properties = Some (blk_properties ps) →
  (2 ≤ length ps)%nat →
  ∃ w1 w2,
    X11DRV_vkEnumerateInstanceExtensionProperties NULL count NULL w = Done VK_SUCCESS w1 ∧
    memory w1 !! count = Some (blk_handle 2) ∧
    X11DRV_vkEnumerateInstanceExtensionProperties NULL count properties w1 =
    Done VK_SUCCESS w2 ∧
    memory w2 !! properties =
      Some (blk_properties
              ([ mkVkExtensionProperties "VK_KHR_surface" 1;
                 mkVkExtensionProperties "VK_KHR_win32_surface" 1 ] ++ drop 2 ps)).
Proof.
  intros Hprops Hcount Hps Hlen.
  assert (count ≠ properties) as Hne by (intros ->; congruence).
  rewrite (enumerate_count_run count old w Hcount).
  eexists _, _. split; [reflexivity|].
  cbn [memory]. split; [by rewrite lookup_insert_eq|].
  rewrite (enumerate_copy_run count properties 2 ps); cbn [memory]; try done.
  - split; [reflexivity|]. cbn [memory]. by rewrite lookup_insert_eq.
  - by rewrite lookup_insert_eq.
  - by rewrite lookup_insert_ne.
  - change (Z.min 2 2) with 2. lia.
Qed.

Lemma enumerate_extensions_two_calls_witness :
  ∃ w1 w2,
    X11DRV_vkEnumerateInstanceExtensionProperties NULL 0x2000 NULL
      (Bench.enumerating 0 [Bench.blank; Bench.blank]) = Done VK_SUCCESS w1 ∧
    memory w1 !! 0x2000 = Some (blk_handle 2) ∧
    X11DRV_vkEnumerateInstanceExtensionProperties NULL 0x2000 0x3000 w1 =
    Done VK_SUCCESS w2 ∧
    memory w2 !! 0x3000 =
      Some (blk_properties
              ([ mkVkExtensionProperties "VK_KHR_surface" 1;
                 mkVkExtensionProperties "VK_KHR_win32_surface" 1 ] ++
               drop 2 [Bench.blank; Bench.blank])).
Proof.
  apply (enumerate_extensions_two_calls 0x2000 0x3000 0 [Bench.blank; Bench.blank]
           (Bench.enumerating 0 [Bench.blank; Bench.blank])).
  - discriminate.
  - reflexivity.
  - reflexivity.
  - simpl. lia.
Defined.

(** ** More on loading the host library *)

Lemma LOAD_FUNCPTR_resolved (E : environment) (f : host_symbol) (rest : M bool) (w : world) :
  wine_dlsym E (vulkan_handle (vars w)) (symbol_name f) ≠ NULL →
  LOAD_FUNCPTR E f rest w =
  rest (set_vars (set_pvk f (wine_dlsym E (vulkan_handle (vars w)) (symbol_name f)) (vars w)) w).
Proof.
  intros Hsym. apply Z.eqb_neq in Hsym.
  unfold LOAD_FUNCPTR, bind, get, modify. by rewrite Hsym.
Qed.

(** The first call on a complete host library: every pointer holds what
    [wine_dlsym] returned for its symbol. *)
Lemma wine_vk_init_complete (E : environment) (w : world) :
  init_done (vars w) = false →
  backend_complete E →
  let h := wine_dlopen E (SONAME_LIBVULKAN E) in
  wine_vk_init E w =
  Done true
    (set_vars
       (mk_statics true h
          (mk_function_pointers
             (wine_dlsym E h "vkCreateInstance")
             (wine_dlsym E h "vkCreateXlibSurfaceKHR")
             (wine_dlsym E h "vkDestroyInstance")
             (wine_dlsym E h "vkDestroySurfaceKHR")
             (wine_dlsym E h "vkGetDeviceProcAddr")
             (wine_dlsym E h "vkGetInstanceProcAddr")
             (wine_dlsym E h "vkGetPhysicalDeviceXlibPresentationSupportKHR"))) w).
Proof.
  intros Hfirst Hcomplete h.
  apply backend_complete_unfold in Hcomplete. fold h in Hcomplete.
  destruct Hcomplete as (Hh & H1 & H2 & H3 & H4 & H5 & H6 & H7).
  apply Z.eqb_neq in Hh.
  destruct w as [str mem live ex [done0 handle0 [p1 p2 p3 p4 p5 p6 p7]] tr].
  cbn [vars init_done] in Hfirst. subst done0.
  unfold wine_vk_init, bind, get, modify. cbn [vars init_done]. fold h. rewrite Hh.
  rewrite !LOAD_FUNCPTR_resolved; done.
Qed.

(** When the library opens and the seven symbols resolve, the first
    [wine_vk_init] succeeds, leaves each of the seven pointers non-null and
    equal to what [wine_dlsym] gave for its symbol, and every later call
    succeeds again without touching the state. *)
Theorem wine_vk_init_resolves_all_symbols (E : environment) (w : world) :
  init_done (vars w) = false →
  backend_complete E →
  ∃ w',
    wine_vk_init E w = Done true w' ∧
    (∀ f, pvk (vars w') f =
          wine_dlsym E (wine_dlopen E (SONAME_LIBVULKAN E)) (symbol_name f) ∧
          pvk (vars w') f ≠ NULL) ∧
    wine_vk_init E w' = Done true w' ∧
    memory w' = memory w ∧ heap_live w' = heap_live w ∧ trace w' = trace w.
Proof.
  intros Hfirst Hcomplete.
  rewrite (wine_vk_init_complete E w Hfirst Hcomplete).
  eexists. split; [reflexivity|]. split; [|split; [|done]].
  - destruct Hcomplete as [_ Hall]. rewrite Forall_forall in Hall.
    intros f. split; [by destruct f|].
    assert (f ∈ required_symbols) as Hf.
    { unfold required_symbols. destruct f; set_solver. }
    specialize (Hall f Hf). by destruct f.
  - rewrite wine_vk_init_again by done. cbn [vars set_vars vulkan_handle].
    destruct Hcomplete as [Hh _]. apply Z.eqb_neq in Hh. by rewrite Hh.
Qed.

Lemma wine_vk_init_resolves_all_symbols_witness :
  ∃ w',
    wine_vk_init Bench.good (Bench.process [] []) = Done true w' ∧
    (∀ f, pvk (vars w') f =
          wine_dlsym Bench.good (wine_dlopen Bench.good (SONAME_LIBVULKAN Bench.good))
            (symbol_name f) ∧
          pvk (vars w') f ≠ NULL) ∧
    wine_vk_init Bench.good w' = Done true w' ∧
    memory w' = memory (Bench.process [] []) ∧
    heap_live w' = heap_live (Bench.process [] []) ∧
    trace w' = trace (Bench.process [] []).
Proof.
  apply (wine_vk_init_resolves_all_symbols Bench.good (Bench.process [] [])).
  - reflexivity.
  - split; [discriminate|]. unfold required_symbols. repeat constructor; discriminate.
Defined.

(** With a complete host library the driver, once handed out, stays
    available: the first [get_vulkan_driver] of the right version returns the
    table, and so does every later one, whatever else happened to memory in
    between, as long as the statics are those the first call left. *)
Theorem get_vulkan_driver_stays_available (E : environment) (w : world) :
  init_done (vars w) = false →
  backend_complete E →
  ∃ w1,
    get_vulkan_driver E (WINE_VULKAN_DRIVER_VERSION E) w = Done (Some (vulkan_funcs E)) w1 ∧
    ∀ w2, vars w2 = vars w1 →
      get_vulkan_driver E (WINE_VULKAN_DRIVER_VERSION E) w2 = Done (Some (vulkan_funcs E)) w2.
Proof.
  intros Hfirst Hcomplete.
  unfold get_vulkan_driver. rewrite Z.eqb_refl. cbn [negb].
  rewrite (bind_Done _ _ _ _ _ (wine_vk_init_complete E w Hfirst Hcomplete)).
  eexists. split; [reflexivity|].
  intros w2 Hvars.
  rewrite (bind_Done _ _ w2 w2 true); [done|].
  rewrite wine_vk_init_again by (by rewrite Hvars).
  rewrite Hvars. cbn [vars set_vars vulkan_handle].
  destruct Hcomplete as [Hh _]. apply Z.eqb_neq in Hh. by rewrite Hh.
Qed.

Lemma get_vulkan_driver_stays_available_witness :
  ∃ w1,
    get_vulkan_driver Bench.good (WINE_VULKAN_DRIVER_VERSION Bench.good) (Bench.process [] []) =
    Done (Some (vulkan_funcs Bench.good)) w1 ∧
    ∀ w2, vars w2 = vars w1 →
      get_vulkan_driver Bench.good (WINE_VULKAN_DRIVER_VERSION Bench.good) w2 =
      Done (Some (vulkan_funcs Bench.good)) w2.
Proof.
  apply (get_vulkan_driver_stays_available Bench.good (Bench.process [] [])).
  - reflexivity.
  - split; [discriminate|]. unfold required_symbols. repeat constructor; discriminate.
Defined.



(** A query with the wrong version is answered with null before anything is
    loaded, so it does not use up the one initialisation: on a complete host
    library a later query with the right version still gets the table. *)
Theorem get_vulkan_driver_mismatch_loads_nothing
    (E : environment) (version : Z) (w : world) :
  version ≠ WINE_VULKAN_DRIVER_VERSION E →
  init_done (vars w) = false →
  backend_complete E →
  ∃ w1 w2,
    get_vulkan_driver E version w = Done None w1 ∧
    vars w1 = vars w ∧
    trace w1 = trace w ++
      [ ev_diag ERR "version mismatch, vulkan wants %u but driver has %u\n"
          [version; WINE_VULKAN_DRIVER_VERSION E] ] ∧
    get_vulkan_driver E (WINE_VULKAN_DRIVER_VERSION E) w1 = Done (Some (vulkan_funcs E)) w2.
Proof.
  intros Hversion Hfirst Hcomplete. apply Z.eqb_neq in Hversion.
  unfold get_vulkan_driver at 1. rewrite Hversion. cbn [negb].
  unfold ERR_, emit, modify, bind, ret.
  eexists _, _. split; [reflexivity|]. split; [done|]. split; [done|].
  unfold get_vulkan_driver. rewrite Z.eqb_refl. cbn [negb].
  erewrite (bind_Done (wine_vk_init E)); cycle 1.
  { by apply wine_vk_init_complete. }
  reflexivity.
Qed.

Lemma get_vulkan_driver_mismatch_loads_nothing_witness :
  ∃ w1 w2,
    get_vulkan_driver Bench.good 7 (Bench.process [] []) = Done None w1 ∧
    vars w1 = vars (Bench.process [] []) ∧
    trace w1 = trace (Bench.process [] []) ++
      [ ev_diag ERR "version mismatch, vulkan wants %u but driver has %u\n"
          [7; WINE_VULKAN_DRIVER_VERSION Bench.good] ] ∧
    get_vulkan_driver Bench.good (WINE_VULKAN_DRIVER_VERSION Bench.good) w1 =
    Done (Some (vulkan_funcs Bench.good)) w2.
Proof.
  apply (get_vulkan_driver_mismatch_loads_nothing Bench.good 7 (Bench.process [] [])).
  - discriminate.
  - reflexivity.
  - split; [discriminate|]. unfold required_symbols. repeat constructor; discriminate.
Defined.

(** ** Creating an instance *)

Lemma call_host_run (f : host_symbol) (w : world) :
  pvk (vars w) f ≠ NULL →
  call_host f w = Done tt (set_trace (trace w ++ [ev_host_call f]) w).
Proof.
  intros Hf. apply Z.eqb_neq in Hf. unfold call_host, bind, get. by rewrite Hf.
Qed.

Lemma heap_free_live (p : ptr) (w : world) :
  p ∈ heap_live w →
  heap_free p w =
  Done tt (mk_world (strings w) (delete p (memory w)) (heap_live w ∖ {[p]})
             (heap_exhausted w) (vars w) (trace w ++ [ev_heap_free p])).
Proof.
  intros Hp. unfold heap_free, emit, modify, bind, get. cbn [heap_live set_trace].
  by rewrite bool_decide_eq_true_2.
Qed.

Lemma entry_diagnostics_run {A} (fmt : string) (args : list Z) (allocator : ptr)
    (rest : M A) (w : world) :
  bind (TRACE_ fmt args)
    (λ _, bind (if allocator =? NULL then ret tt
                else FIXME_ "Support for allocation callbacks not implemented yet\n" [])
            (λ _, rest)) w =
  rest (set_trace (trace w ++ entry_diagnostics fmt args allocator) w).
Proof.
  unfold entry_diagnostics, TRACE_, FIXME_, emit, modify, bind, ret.
  destruct (allocator =? NULL); unfold set_trace; cbn [trace strings memory heap_live
    heap_exhausted vars]; by rewrite <- ?app_assoc.
Qed.

(** The normal path of [X11DRV_vkCreateInstance] with extensions: the host
    is called on the converted create-info while the converted array is
    live, its result is what the thunk returns, and afterwards the array is
    gone again: the heap is as before and memory differs at most in the
    caller's instance cell. *)
Theorem create_instance_releases_converted_array
    (E : environment) (src : VkInstanceCreateInfo) (allocator instance : ptr) (old : Z)
    (w : world) (names : list ptr) :
  pvk (vars w) vkCreateInstance ≠ NULL →
  heap_live w ⊆ dom (memory w) →
  memory w !! instance = Some (blk_handle old) →
  0 < enabledExtensionCount src →
  next_alloc_fails w = false →
  memory w !! ppEnabledExtensionNames src = Some (blk_names names) →
  Z.of_nat (length names) = enabledExtensionCount src →
  Forall (λ p, is_Some (string_at E w p)) names →
  ∃ create_info_host wh res created w',
    host_vkCreateInstance E create_info_host wh = (res, created) ∧
    memory wh !! ppEnabledExtensionNames create_info_host =
      Some (blk_names (substitute E w <$> names)) ∧
    enabledExtensionCount create_info_host = enabledExtensionCount src ∧
    enabledLayerCount create_info_host = 0 ∧
    pNext create_info_host = header_null ∧
    X11DRV_vkCreateInstance E src allocator instance w = Done res w' ∧
    heap_live w' = heap_live w ∧
    memory w' = match created with
                | Some v => <[instance := blk_handle v]> (memory w)
                | None => memory w
                end.
Proof.
  intros Hptr Hheap Hinst Hcount Hok Hsrc Hlen Hstr.
  pose proof (is_fresh ({[NULL]} ∪ dom (memory w))) as Hfresh.
  set (a := fresh ({[NULL]} ∪ dom (memory w))) in *.
  assert (a ≠ NULL) as Hnull by set_solver.
  assert (memory w !! a = None) as Hnone by (apply not_elem_of_dom; set_solver).
  assert (a ∉ heap_live w) as Hdead by set_solver.
  assert (instance ≠ a) as Hne by (intros ->; congruence).
  unfold X11DRV_vkCreateInstance. rewrite entry_diagnostics_run.
  set (w0 := set_trace _ w).
  erewrite (bind_Done (wine_vk_instance_convert_create_info E src _)); cycle 1.
  { by apply (convert_extensions E src _ w0 names). }
  cbn [memory heap_live heap_exhausted strings vars trace w0 set_trace]. fold a.
  change (VK_SUCCESS =? VK_SUCCESS) with true. cbn iota.
  erewrite (bind_Done (call_host vkCreateInstance)) by (by apply call_host_run).
  unfold get at 1. unfold bind at 1.
  set (create_info_host := mkVkInstanceCreateInfo _ _ _ _ _ _ _ _).
  set (wh := set_trace _ _).
  destruct (host_vkCreateInstance E create_info_host wh) as [res created] eqn:Hhost.
  exists create_info_host, wh, res, created.
  cbn [ppEnabledExtensionNames create_info_host].
  destruct (a =? NULL) eqn:?; [lia|].
  destruct created as [v|]; cbn [store_result].
  - erewrite (bind_Done (store_handle instance v)); cycle 1.
    { eapply store_handle_run. unfold wh. cbn [memory set_trace].
      by rewrite lookup_insert_ne. }
    erewrite (bind_Done (heap_free a)); cycle 1.
    { apply heap_free_live. unfold wh. cbn [heap_live set_memory set_trace]. set_solver. }
    eexists. split; [done|]. split.
    { unfold wh. cbn [memory set_trace]. by rewrite lookup_insert_eq. }
    do 3 (split; [done|]). split; [reflexivity|].
    unfold wh. cbn [heap_live memory set_memory set_trace]. split.
    + set_solver.
    + rewrite insert_insert_ne by done. by rewrite delete_insert_id by (by rewrite lookup_insert_ne).
  - unfold ret at 1. unfold bind at 1.
    erewrite (bind_Done (heap_free a)); cycle 1.
    { apply heap_free_live. unfold wh. cbn [heap_live set_trace]. set_solver. }
    eexists. split; [done|]. split.
    { unfold wh. cbn [memory set_trace]. by rewrite lookup_insert_eq. }
    do 3 (split; [done|]). split; [reflexivity|].
    unfold wh. cbn [heap_live memory set_trace]. split.
    + set_solver.
    + by rewrite delete_insert_id.
Qed.

Lemma create_instance_releases_converted_array_witness :
  ∃ create_info_host wh res created w',
    host_vkCreateInstance Bench.good create_info_host wh = (res, created) ∧
    memory wh !! ppEnabledExtensionNames create_info_host =
      Some (blk_names (substitute Bench.good (Bench.loaded [0x200; 0x300; 0x200] []) <$>
                       [0x200; 0x300; 0x200])) ∧
    enabledExtensionCount create_info_host = 3 ∧
    enabledLayerCount create_info_host = 0 ∧
    pNext create_info_host = header_null ∧
    X11DRV_vkCreateInstance Bench.good (Bench.create_info Bench.debug_report 3) NULL 0x2000
      (Bench.loaded [0x200; 0x300; 0x200] []) = Done res w' ∧
    heap_live w' = heap_live (Bench.loaded [0x200; 0x300; 0x200] []) ∧
    memory w' = match created with
                | Some v => <[0x2000 := blk_handle v]>
                              (memory (Bench.loaded [0x200; 0x300; 0x200] []))
                | None => memory (Bench.loaded [0x200; 0x300; 0x200] [])
                end.
Proof.
  apply (create_instance_releases_converted_array Bench.good
           (Bench.create_info Bench.debug_report 3) NULL 0x2000 0
           (Bench.loaded [0x200; 0x300; 0x200] []) [0x200; 0x300; 0x200]).
  - discriminate.
  - compute_done.
  - reflexivity.
  - reflexivity.
  - reflexivity.
  - reflexivity.
  - reflexivity.
  - repeat constructor; vm_compute; eauto.
Defined.

(** When the conversion runs out of memory [X11DRV_vkCreateInstance] gives
    up with VK_ERROR_OUT_OF_HOST_MEMORY before it reaches the host: no host
    call, nothing freed, memory (the instance cell included) and heap as
    before.  This needs no resolved pointer and no readable input. *)
Theorem create_instance_out_of_memory
    (E : environment) (src : VkInstanceCreateInfo) (allocator instance : ptr) (w : world) :
  0 < enabledExtensionCount src →
  next_alloc_fails w = true →
  ∃ w' new,
    X11DRV_vkCreateInstance E src allocator instance w =
    Done VK_ERROR_OUT_OF_HOST_MEMORY w' ∧
    trace w' = trace w ++ new ∧
    Forall (λ e, is_host_call e = false ∧ ∀ p, e ≠ ev_heap_free p) new ∧
    last new = Some (ev_diag ERR "Failed to convert instance create info, res=%d\n"
                       [VK_ERROR_OUT_OF_HOST_MEMORY]) ∧
    memory w' = memory w ∧
    heap_live w' = heap_live w.
Proof.
  intros Hcount Hfail.
  exists (state_after (X11DRV_vkCreateInstance E src allocator instance) w),
    (entry_diagnostics "create_info %p, allocator %p, instance %p\n" [allocator; instance]
       allocator ++ reports src ++
     [ ev_heap_alloc (enabledExtensionCount src * sizeof_ptr) NULL;
       ev_diag ERR "Failed to allocate memory for enabled extensions\n" [] ] ++
     [ ev_diag ERR "Failed to convert instance create info, res=%d\n"
         [VK_ERROR_OUT_OF_HOST_MEMORY] ]).
  unfold state_after, X11DRV_vkCreateInstance. rewrite entry_diagnostics_run.
  erewrite (bind_Done (wine_vk_instance_convert_create_info E src _)); cycle 1.
  { by apply convert_out_of_memory. }
  change (VK_ERROR_OUT_OF_HOST_MEMORY =? VK_SUCCESS) with false. cbn iota.
  unfold ERR_, emit, modify, bind, ret.
  split; [reflexivity|]. split.
  { simpl. by rewrite <- !app_assoc. }
  split; [|split; [|done]].
  - rewrite !Forall_app. split; [|split; [|split]].
    + unfold entry_diagnostics. destruct (allocator =? NULL); by repeat constructor.
    + unfold reports. rewrite Forall_fmap. apply Forall_true. by intros ?.
    + by repeat constructor.
    + by repeat constructor.
  - by rewrite !app_assoc, last_snoc.
Qed.

Lemma create_instance_out_of_memory_witness :
  ∃ w' new,
    X11DRV_vkCreateInstance Bench.no_library (Bench.create_info Bench.debug_report 3) 0x6000
      0x2000 (Bench.process [0x200; 0x300; 0x200] [true]) =
    Done VK_ERROR_OUT_OF_HOST_MEMORY w' ∧
    trace w' = trace (Bench.process [0x200; 0x300; 0x200] [true]) ++ new ∧
    Forall (λ e, is_host_call e = false ∧ ∀ p, e ≠ ev_heap_free p) new ∧
    last new = Some (ev_diag ERR "Failed to convert instance create info, res=%d\n"
                       [VK_ERROR_OUT_OF_HOST_MEMORY]) ∧
    memory w' = memory (Bench.process [0x200; 0x300; 0x200] [true]) ∧
    heap_live w' = heap_live (Bench.process [0x200; 0x300; 0x200] [true]).
Proof.
  apply (create_instance_out_of_memory Bench.no_library
           (Bench.create_info Bench.debug_report 3) 0x6000 0x2000
           (Bench.process [0x200; 0x300; 0x200] [true])).
  - reflexivity.
  - reflexivity.
Defined.

(** ** More on surfaces *)

Lemma load_surface_run (p : ptr) (s : wine_vk_surface) (w : world) :
  memory w !! p = Some (blk_surface s) → load_surface p w = Done s w.
Proof. intros Hp. unfold load_surface, bind, get. by rewrite Hp. Qed.

Lemma store_surface_run (p : ptr) (old s : wine_vk_surface) (w : world) :
  memory w !! p = Some (blk_surface old) →
  store_surface p s w = Done tt (set_memory (<[p := blk_surface s]> (memory w)) w).
Proof. intros Hp. unfold store_surface, bind, get, modify. by rewrite Hp. Qed.

(** Projections of a state that was built by setters. *)
Ltac world_simpl :=
  cbn [memory set_memory set_trace set_heap_live set_heap_exhausted set_vars
       strings heap_live heap_exhausted vars trace].

(** The successful path of [X11DRV_vkCreateWin32SurfaceKHR], state and all. *)
Lemma create_surface_run
    (E : environment) (instance : VkInstance) (create_info : Win32.VkWin32SurfaceCreateInfoKHR)
    (allocator surface : ptr) (old : Z) (created : option VkSurfaceKHR) (w : world) :
  let win := create_client_window E (Win32.hwnd create_info) in
  let a : ptr := fresh ({[NULL]} ∪ dom (memory w)) in
  GetAncestor E (Win32.hwnd create_info) GA_PARENT = GetDesktopWindow E →
  win ≠ 0 →
  next_alloc_fails w = false →
  pvk (vars w) vkCreateXlibSurfaceKHR ≠ NULL →
  host_vkCreateXlibSurfaceKHR E instance
    (Xlib.mk VK_STRUCTURE_TYPE_XLIB_SURFACE_CREATE_INFO_KHR NULL 0 (gdi_display E) win) =
  (VK_SUCCESS, created) →
  memory w !! surface = Some (blk_handle old) →
  X11DRV_vkCreateWin32SurfaceKHR E instance create_info allocator surface w =
  Done VK_SUCCESS
    (mk_world (strings w)
       (<[surface := blk_handle a]>
          (<[a := blk_surface (Surface.mk win (default (uninitialized E) created))]>
             (memory w)))
       ({[a]} ∪ heap_live w) (tail (heap_exhausted w)) (vars w)
       (trace w ++
        entry_diagnostics "%p %p %p %p\n" [instance; allocator; surface] allocator ++
        [ ev_create_client_window (Win32.hwnd create_info) win;
          ev_heap_alloc sizeof_wine_vk_surface a;
          ev_host_call vkCreateXlibSurfaceKHR;
          ev_diag TRACE "Created surface=0x%s\n" [a] ])).
Proof.
  intros win a Hparent Hwin Hok Hptr Hhost Hsurface.
  pose proof (is_fresh ({[NULL]} ∪ dom (memory w))) as Hfresh.
  assert (fresh ({[NULL]} ∪ dom (memory w)) = a) as Ha by done. clearbody a.
  rewrite Ha in Hfresh.
  assert (a ≠ NULL) as Hnull by set_solver.
  assert (surface ≠ a) as Hne.
  { intros ->. apply Hfresh, elem_of_union_r, elem_of_dom. eauto. }
  apply Z.eqb_eq in Hparent. apply Z.eqb_neq in Hwin, Hnull.
  unfold X11DRV_vkCreateWin32SurfaceKHR. rewrite entry_diagnostics_run.
  rewrite Hparent. cbn [negb]. fold win.
  unfold emit at 1, modify at 1. unfold bind at 1. rewrite Hwin.
  erewrite (bind_Done (heap_alloc _ _)) by (by apply heap_alloc_succeeds).
  world_simpl. rewrite Ha, Hnull.
  erewrite (bind_Done (load_surface a)); cycle 1.
  { apply load_surface_run. world_simpl. by rewrite lookup_insert_eq. }
  erewrite (bind_Done (store_surface a _)); cycle 1.
  { eapply store_surface_run. world_simpl. by rewrite lookup_insert_eq. }
  world_simpl. rewrite insert_insert_eq.
  erewrite (bind_Done (load_surface a)); cycle 1.
  { apply load_surface_run. world_simpl. by rewrite lookup_insert_eq. }
  erewrite (bind_Done (call_host vkCreateXlibSurfaceKHR)) by (by apply call_host_run).
  cbn [Surface.window Surface.surface]. rewrite Hhost.
  change (VK_SUCCESS =? VK_SUCCESS) with true. cbn iota.
  destruct created as [native|].
  - erewrite (bind_Done (bind (load_surface a) _)); cycle 1.
    { erewrite (bind_Done (load_surface a)); cycle 1.
      { apply load_surface_run. world_simpl. by rewrite lookup_insert_eq. }
      eapply store_surface_run. world_simpl. by rewrite lookup_insert_eq. }
    world_simpl. rewrite insert_insert_eq.
    erewrite (bind_Done (store_handle surface a)); cycle 1.
    { eapply store_handle_run. world_simpl. by rewrite lookup_insert_ne. }
    erewrite (bind_Done (load_handle surface)); cycle 1.
    { apply load_handle_run. world_simpl. by rewrite lookup_insert_eq. }
    unfold TRACE_, emit, modify, bind, ret, set_trace, set_memory.
    world_simpl.
    by rewrite <- !app_assoc.
  - unfold ret at 1. unfold bind at 1.
    erewrite (bind_Done (store_handle surface a)); cycle 1.
    { eapply store_handle_run. world_simpl. by rewrite lookup_insert_ne. }
    erewrite (bind_Done (load_handle surface)); cycle 1.
    { apply load_handle_run. world_simpl. by rewrite lookup_insert_eq. }
    unfold TRACE_, emit, modify, bind, ret, set_trace, set_memory.
    world_simpl.
    by rewrite <- !app_assoc.
Qed.

(** [X11DRV_vkDestroySurfaceKHR] on a live record, state and all. *)
Lemma destroy_surface_run
    (instance : VkInstance) (surface : VkSurfaceKHR) (allocator : ptr)
    (s : wine_vk_surface) (w : world) :
  memory w !! surface = Some (blk_surface s) →
  surface ∈ heap_live w →
  pvk (vars w) vkDestroySurfaceKHR ≠ NULL →
  X11DRV_vkDestroySurfaceKHR instance surface allocator w =
  Done tt
    (mk_world (strings w) (delete surface (memory w)) (heap_live w ∖ {[surface]})
       (heap_exhausted w) (vars w)
       (trace w ++
        entry_diagnostics "%p 0x%s %p\n" [instance; surface; allocator] allocator ++
        [ ev_host_call vkDestroySurfaceKHR; ev_heap_free surface ])).
Proof.
  intros Hs Hlive Hptr.
  unfold X11DRV_vkDestroySurfaceKHR. rewrite entry_diagnostics_run.
  cbv zeta.
  erewrite (bind_Done (load_surface surface)) by (apply load_surface_run; exact Hs).
  erewrite (bind_Done (call_host vkDestroySurfaceKHR)) by (apply call_host_run; exact Hptr).
  rewrite heap_free_live by exact Hlive.
  world_simpl.
  by rewrite <- !app_assoc.
Qed.

(** A top-level window, a window the X11 driver can create, memory for the
    record and a host that creates its surface: the call succeeds, the
    caller's handle is the address of a fresh [wine_vk_surface] that holds
    the client window and the host's surface, and nothing else that was in
    memory changes. *)
Theorem create_surface_wraps_host_surface
    (E : environment) (instance : VkInstance) (create_info : Win32.VkWin32SurfaceCreateInfoKHR)
    (allocator surface : ptr) (old : Z) (native : VkSurfaceKHR) (w : world) :
  GetAncestor E (Win32.hwnd create_info) GA_PARENT = GetDesktopWindow E →
  create_client_window E (Win32.hwnd create_info) ≠ 0 →
  next_alloc_fails w = false →
  pvk (vars w) vkCreateXlibSurfaceKHR ≠ NULL →
  host_vkCreateXlibSurfaceKHR E instance
    (Xlib.mk VK_STRUCTURE_TYPE_XLIB_SURFACE_CREATE_INFO_KHR NULL 0 (gdi_display E)
       (create_client_window E (Win32.hwnd create_info))) = (VK_SUCCESS, Some native) →
  memory w !! surface = Some (blk_handle old) →
  ∃ w' x11_surface,
    X11DRV_vkCreateWin32SurfaceKHR E instance create_info allocator surface w =
    Done VK_SUCCESS w' ∧
    x11_surface ≠ NULL ∧
    (x11_surface ∉ dom (memory w)) ∧
    memory w' !! surface = Some (blk_handle x11_surface) ∧
    memory w' !! x11_surface =
      Some (blk_surface (Surface.mk (create_client_window E (Win32.hwnd create_info)) native)) ∧
    heap_live w' = {[x11_surface]} ∪ heap_live w ∧
    (∀ p, p ∈ dom (memory w) → p ≠ surface → memory w' !! p = memory w !! p).
Proof.
  intros Hparent Hwin Hok Hptr Hhost Hsurface.
  pose proof (is_fresh ({[NULL]} ∪ dom (memory w))) as Hfresh.
  rewrite (create_surface_run E instance create_info allocator surface old (Some native) w)
    by done.
  set (a := fresh ({[NULL]} ∪ dom (memory w))) in *.
  assert (surface ≠ a) as Hne.
  { intros ->. apply Hfresh, elem_of_union_r, elem_of_dom. eauto. }
  eexists _, a. split; [reflexivity|]. world_simpl.
  split; [set_solver|]. split; [set_solver|].
  split; [by rewrite lookup_insert_eq|].
  split; [by rewrite lookup_insert_ne, lookup_insert_eq|].
  split; [done|].
  intros p Hp Hps. rewrite !lookup_insert_ne; [done| |done].
  intros <-. set_solver.
Qed.

Lemma create_surface_wraps_host_surface_witness :
  ∃ w' x11_surface,
    X11DRV_vkCreateWin32SurfaceKHR Bench.good 0x1111 (Bench.surface_info Bench.toplevel) NULL
      0x2000 (Bench.loaded [] []) = Done VK_SUCCESS w' ∧
    x11_surface ≠ NULL ∧
    (x11_surface ∉ dom (memory (Bench.loaded [] []))) ∧
    memory w' !! 0x2000 = Some (blk_handle x11_surface) ∧
    memory w' !! x11_surface = Some (blk_surface (Surface.mk 0x400020 0x2222)) ∧
    heap_live w' = {[x11_surface]} ∪ heap_live (Bench.loaded [] []) ∧
    (∀ p, p ∈ dom (memory (Bench.loaded [] [])) → p ≠ 0x2000 →
          memory w' !! p = memory (Bench.loaded [] []) !! p).
Proof.
  apply (create_surface_wraps_host_surface Bench.good 0x1111
           (Bench.surface_info Bench.toplevel) NULL 0x2000 0 0x2222 (Bench.loaded [] [])).
  - reflexivity.
  - discriminate.
  - reflexivity.
  - discriminate.
  - reflexivity.
  - reflexivity.
Defined.

(** When the client window cannot be created, or the record cannot be
    allocated, the call answers VK_ERROR_OUT_OF_HOST_MEMORY without calling
    the host and without leaving anything in memory or on the heap. *)
Theorem create_surface_out_of_memory
    (E : environment) (instance : VkInstance) (create_info : Win32.VkWin32SurfaceCreateInfoKHR)
    (allocator surface : ptr) (w : world) :
  GetAncestor E (Win32.hwnd create_info) GA_PARENT = GetDesktopWindow E →
  create_client_window E (Win32.hwnd create_info) = 0 ∨ next_alloc_fails w = true →
  ∃ w' new,
    X11DRV_vkCreateWin32SurfaceKHR E instance create_info allocator surface w =
    Done VK_ERROR_OUT_OF_HOST_MEMORY w' ∧
    trace w' = trace w ++ new ∧
    Forall (λ e, is_host_call e = false) new ∧
    memory w' = memory w ∧
    heap_live w' = heap_live w.
Proof.
  intros Hparent Hfail. apply Z.eqb_eq in Hparent.
  unfold X11DRV_vkCreateWin32SurfaceKHR. rewrite entry_diagnostics_run.
  rewrite Hparent. cbn [negb].
  unfold emit at 1, modify at 1. unfold bind at 1.
  assert (Forall (λ e, is_host_call e = false)
            (entry_diagnostics "%p %p %p %p\n" [instance; allocator; surface] allocator))
    as Hpre.
  { unfold entry_diagnostics. destruct (allocator =? NULL); by repeat constructor. }
  destruct (create_client_window E (Win32.hwnd create_info) =? 0) eqn:Hwin.
  - eexists _, _. split; [reflexivity|]. world_simpl.
    split; [by rewrite <- app_assoc|]. split; [|done].
    rewrite Forall_app. split; [done|]. by repeat constructor.
  - destruct Hfail as [Hzero|Halloc]; [apply Z.eqb_neq in Hwin; lia|].
    erewrite (bind_Done (heap_alloc _ _)) by (by apply heap_alloc_fails).
    cbn [Z.eqb NULL].
    eexists _, _. split; [reflexivity|]. world_simpl.
    split; [by rewrite <- !app_assoc|]. split; [|done].
    rewrite !Forall_app. split; [done|]. split; by repeat constructor.
Qed.

Lemma create_surface_out_of_memory_witness :
  ∃ w' new,
    X11DRV_vkCreateWin32SurfaceKHR Bench.good 0x1111 (Bench.surface_info Bench.toplevel) NULL
      0x2000 (Bench.loaded [] [true]) = Done VK_ERROR_OUT_OF_HOST_MEMORY w' ∧
    trace w' = trace (Bench.loaded [] [true]) ++ new ∧
    Forall (λ e, is_host_call e = false) new ∧
    memory w' = memory (Bench.loaded [] [true]) ∧
    heap_live w' = heap_live (Bench.loaded [] [true]).
Proof.
  apply (create_surface_out_of_memory Bench.good 0x1111 (Bench.surface_info Bench.toplevel)
           NULL 0x2000 (Bench.loaded [] [true])).
  - reflexivity.
  - right. reflexivity.
Defined.

(** [X11DRV_vkDestroySurfaceKHR] on the handle of a live record calls the
    host once and releases the record: the block leaves memory and heap, and
    nothing else does. *)
Theorem destroy_surface_releases_record
    (instance : VkInstance) (surface : VkSurfaceKHR) (allocator : ptr)
    (s : wine_vk_surface) (w : world) :
  memory w !! surface = Some (blk_surface s) →
  surface ∈ heap_live w →
  pvk (vars w) vkDestroySurfaceKHR ≠ NULL →
  ∃ w',
    X11DRV_vkDestroySurfaceKHR instance surface allocator w = Done tt w' ∧
    memory w' = delete surface (memory w) ∧
    heap_live w' = heap_live w ∖ {[surface]} ∧
    trace w' = trace w ++
      entry_diagnostics "%p 0x%s %p\n" [instance; surface; allocator] allocator ++
      [ ev_host_call vkDestroySurfaceKHR; ev_heap_free surface ].
Proof.
  intros Hs Hlive Hptr.
  rewrite (destroy_surface_run instance surface allocator s w Hs Hlive Hptr).
  by eexists.
Qed.

Lemma destroy_surface_releases_record_witness :
  ∃ w',
    X11DRV_vkDestroySurfaceKHR 0x1111 0x5001 NULL
      (state_after (X11DRV_vkCreateWin32SurfaceKHR Bench.good 0x1111
                      (Bench.surface_info Bench.toplevel) NULL 0x2000)
         (Bench.loaded [] [])) = Done tt w' ∧
    memory w' =
      delete 0x5001
        (memory (state_after (X11DRV_vkCreateWin32SurfaceKHR Bench.good 0x1111
                                (Bench.surface_info Bench.toplevel) NULL 0x2000)
                   (Bench.loaded [] []))) ∧
    heap_live w' =
      heap_live (state_after (X11DRV_vkCreateWin32SurfaceKHR Bench.good 0x1111
                                (Bench.surface_info Bench.toplevel) NULL 0x2000)
                   (Bench.loaded [] [])) ∖ {[0x5001]} ∧
    trace w' =
      trace (state_after (X11DRV_vkCreateWin32SurfaceKHR Bench.good 0x1111
                            (Bench.surface_info Bench.toplevel) NULL 0x2000)
               (Bench.loaded [] [])) ++
      entry_diagnostics "%p 0x%s %p\n" [0x1111; 0x5001; NULL] NULL ++
      [ ev_host_call vkDestroySurfaceKHR; ev_heap_free 0x5001 ].
Proof.
  apply (destroy_surface_releases_record 0x1111 0x5001 NULL (Surface.mk 0x400020 0x2222)).
  - by vm_compute.
  - compute_done.
  - by vm_compute.
Defined.

(** Creating a surface and destroying it through the handle the caller got
    gives the heap back as it was; in memory only the caller's cell, which
    still holds the stale handle, differs. *)
Theorem create_then_destroy_surface
    (E : environment) (instance : VkInstance) (create_info : Win32.VkWin32SurfaceCreateInfoKHR)
    (allocator surface : ptr) (old : Z) (native : VkSurfaceKHR) (w : world) :
  GetAncestor E (Win32.hwnd create_info) GA_PARENT = GetDesktopWindow E →
  create_client_window E (Win32.hwnd create_info) ≠ 0 →
  next_alloc_fails w = false →
  pvk (vars w) vkCreateXlibSurfaceKHR ≠ NULL →
  pvk (vars w) vkDestroySurfaceKHR ≠ NULL →
  host_vkCreateXlibSurfaceKHR E instance
    (Xlib.mk VK_STRUCTURE_TYPE_XLIB_SURFACE_CREATE_INFO_KHR NULL 0 (gdi_display E)
       (create_client_window E (Win32.hwnd create_info))) = (VK_SUCCESS, Some native) →
  memory w !! surface = Some (blk_handle old) →
  heap_live w ⊆ dom (memory w) →
  ∃ w1 handle w2,
    X11DRV_vkCreateWin32SurfaceKHR E instance create_info allocator surface w =
    Done VK_SUCCESS w1 ∧
    memory w1 !! surface = Some (blk_handle handle) ∧
    X11DRV_vkDestroySurfaceKHR instance handle allocator w1 = Done tt w2 ∧
    heap_live w2 = heap_live w ∧
    memory w2 = <[surface := blk_handle handle]> (memory w).
Proof.
  intros Hparent Hwin Hok Hcreate Hdestroy Hhost Hsurface Hheap.
  pose proof (is_fresh ({[NULL]} ∪ dom (memory w))) as Hfresh.
  rewrite (create_surface_run E instance create_info allocator surface old (Some native) w)
    by done.
  set (a := fresh ({[NULL]} ∪ dom (memory w))) in *.
  assert (surface ≠ a) as Hne.
  { intros ->. apply Hfresh, elem_of_union_r, elem_of_dom. eauto. }
  assert (memory w !! a = None) as Hnone by (apply not_elem_of_dom; set_solver).
  eexists _, a, _. split; [reflexivity|]. world_simpl.
  split; [by rewrite lookup_insert_eq|].
  erewrite destroy_surface_run; cycle 1.
  { world_simpl. by rewrite lookup_insert_ne, lookup_insert_eq. }
  { world_simpl. set_solver. }
  { exact Hdestroy. }
  split; [reflexivity|]. world_simpl. split.
  - set_solver.
  - rewrite delete_insert_ne by done. by rewrite delete_insert_id.
Qed.

Lemma create_then_destroy_surface_witness :
  ∃ w1 handle w2,
    X11DRV_vkCreateWin32SurfaceKHR Bench.good 0x1111 (Bench.surface_info Bench.toplevel) NULL
      0x2000 (Bench.loaded [] []) = Done VK_SUCCESS w1 ∧
    memory w1 !! 0x2000 = Some (blk_handle handle) ∧
    X11DRV_vkDestroySurfaceKHR 0x1111 handle NULL w1 = Done tt w2 ∧
    heap_live w2 = heap_live (Bench.loaded [] []) ∧
    memory w2 = <[0x2000 := blk_handle handle]> (memory (Bench.loaded [] [])).
Proof.
  apply (create_then_destroy_surface Bench.good 0x1111 (Bench.surface_info Bench.toplevel)
           NULL 0x2000 0 0x2222 (Bench.loaded [] [])).
  - reflexivity.
  - discriminate.
  - reflexivity.
  - discriminate.
  - discriminate.
  - reflexivity.
  - reflexivity.
  - compute_done.
Defined.
